(** * EduTube course synchronisation

    A shallow embedding of the client-side synchronisation code of the
    EduTube course catalogue and of the server-side category handling:

    - [src/project/src/sync-courses-global.js]: [syncLocalStorage],
      [fetchMongoDBCourses], [forceSync], [startAutoRefresh],
      [stopAutoRefresh];
    - the [mongoSync] module (second document of
      [src/project/src/utils/scriptLoader.js]): [saveToMongoDB],
      [deleteFromMongoDB], [fetchFromMongoDB], [verifyMongoDBConnection];
    - the [courseUtils] module ([src/unnamed/part_005]): [saveCourse],
      [getCourses], [deleteCourse], [verifyMongoDBSync];
    - the [Course] schema ([src/unnamed/part_000]) and the category
      processing of [POST /api/courses] ([src/routes/courses.js]).

    Browser storage, the network and the clock form an explicit [World]
    threaded through a state-and-exception monad: a JavaScript [throw]
    keeps every storage write made before it, so the state survives an
    exception. *)

From stdpp Require Import base strings gmap list pretty.
From Stdlib Require Import ZArith Lia.

Local Open Scope string_scope.
Local Open Scope list_scope.

Set Warnings "-clear-no-such-hyp".

(** ** Data model *)

(** The category of a course as the code meets it: absent, [null], a bare
    id string, or an embedded object whose fields [_id], [id] and [name]
    may each be missing. *)
Module Category.
Record obj := { _id : option string; id : option string; name : option string }.
End Category.

Inductive CategoryValue :=
| CatUndefined
| CatNull
| CatStr (s : string)
| CatObj (o : Category.obj).

(** A course record.  [_id = None] is JavaScript's [undefined]: the record
    has not been given an identity by the database yet. *)
Record Course := {
  _id : option string;
  title : string;
  description : string;
  instructor : string;
  thumbnail : string;
  category : CategoryValue;
  level : string;
  updatedAt : option string
}.

#[global] Instance Category_obj_eq_dec : EqDecision Category.obj.
Proof. solve_decision. Defined.
#[global] Instance CategoryValue_eq_dec : EqDecision CategoryValue.
Proof. solve_decision. Defined.
#[global] Instance Course_eq_dec : EqDecision Course.
Proof. solve_decision. Defined.

(** JavaScript truthiness of a possibly missing string: [undefined] and the
    empty string are falsy. *)
Definition truthy (v : option string) : bool :=
  match v with
  | Some s => negb (String.eqb s "")
  | None => false
  end.

(** [a || b] on possibly missing strings. *)
Definition js_or (a b : option string) : option string :=
  if truthy a then a else b.

(** The JSON values exchanged with the courses API and kept in browser
    storage: [null], an array of course records, one course record, and a
    [{msg}] object such as the one [DELETE] answers with. *)
Inductive Payload :=
| PNull
| PCourses (cs : list Course)
| PCourse (c : Course)
| PMsg (msg : string).

(** A string held by a storage slot: either the serialisation of a JSON
    value, or some text [JSON.parse] rejects. *)
Inductive Text :=
| Json (p : Payload)
| Malformed (s : string).

#[global] Instance Payload_eq_dec : EqDecision Payload.
Proof. solve_decision. Defined.
#[global] Instance Text_eq_dec : EqDecision Text.
Proof. solve_decision. Defined.

Definition JSON_stringify (p : Payload) : Text := Json p.

(** [if (str)] on a string read from storage: only the empty string is
    falsy. *)
Definition text_truthy (t : Text) : bool :=
  match t with
  | Malformed s => negb (String.eqb s "")
  | Json _ => true
  end.

(** ** The world: storage, network, clock *)

Record Request := {
  url : string;
  method : string;
  headers : list (string * string);
  body : option Text
}.

(** An HTTP response as the code reads it: [response.status],
    [response.statusText], the raw body that [await response.text()]
    yields, and what [await response.json()] makes of that body ([None]
    when it is not JSON).  The code reads the body of a response once, as
    text or as JSON. *)
Record Reply := {
  status : nat;
  statusText : string;
  text : string;
  json : option Payload
}.

(** What the network does with one request: [fetch] rejects, or an HTTP
    response arrives. *)
Inductive Response :=
| Rejected
| Http (r : Reply).

Record World := {
  localStorage : gmap string Text;
  network : list Response;   (* answers the network will give, in order *)
  sent : list Request;       (* requests issued so far, oldest first *)
  clock : N                  (* [Date.now()] *)
}.

Inductive Exn :=
| NetworkError
| SyntaxError
| TypeError
| QuotaExceededError
| Error (msg : string).

Inductive Result (A : Type) :=
| Ok (a : A)
| Throw (e : Exn).
Arguments Ok {A} a.
Arguments Throw {A} e.

Definition M (A : Type) : Type := World -> World * Result A.

Definition ret {A} (a : A) : M A := fun w => (w, Ok a).

Definition throw {A} (e : Exn) : M A := fun w => (w, Throw e).

Definition bind {A B} (m : M A) (k : A -> M B) : M B :=
  fun w =>
    match m w with
    | (w', Ok a) => k a w'
    | (w', Throw e) => (w', Throw e)
    end.

(** [try { m } catch (e) { h e }]. *)
Definition try_catch {A} (m : M A) (h : Exn -> M A) : M A :=
  fun w =>
    match m w with
    | (w', Ok a) => (w', Ok a)
    | (w', Throw e) => h e w'
    end.

Notation "'let!' x ':=' m 'in' k" := (bind m (fun x => k))
  (at level 10, x name, m at level 100, k at level 200).
Notation "m ';;' k" := (bind m (fun _ => k))
  (at level 100, k at level 200, right associativity).

Definition set_storage (s : gmap string Text) (w : World) : World :=
  {| localStorage := s; network := network w; sent := sent w; clock := clock w |}.

Definition getItem (k : string) : M (option Text) :=
  fun w => (w, Ok (localStorage w !! k)).

Definition Date_now : M N := fun w => (w, Ok (clock w)).

(** [fetch(url, init)]: the request is recorded and the next answer of the
    network is consumed; a rejected (or missing) answer is a network
    error. *)
Definition fetch (req : Request) : M Reply :=
  fun w =>
    let w' := {| localStorage := localStorage w; network := tail (network w);
                 sent := sent w ++ [req]; clock := clock w |} in
    match network w with
    | Http r :: _ => (w', Ok r)
    | _ => (w', Throw NetworkError)
    end.

(** [response.ok]: the status is in the range 200-299. *)
Definition response_ok (r : Reply) : bool :=
  (200 <=? status r)%nat && (status r <=? 299)%nat.

(** [await response.json()]. *)
Definition response_json (r : Reply) : M Payload :=
  match json r with
  | Some p => ret p
  | None => throw SyntaxError
  end.

(** [await response.text()]. *)
Definition response_text (r : Reply) : M string := ret (text r).

(** [errorText || response.statusText]: the empty string is falsy. *)
Definition text_or (a b : string) : string :=
  if String.eqb a "" then b else a.

Definition JSON_parse (t : Text) : M Payload :=
  match t with
  | Json p => ret p
  | Malformed _ => throw SyntaxError
  end.

(** Calling an array method ([findIndex], [push], [some], [map], [filter])
    on a parsed value: anything but an array raises a [TypeError]. *)
Definition as_array (p : Payload) : M (list Course) :=
  match p with
  | PCourses cs => ret cs
  | _ => throw TypeError
  end.

(** [v.length]: [undefined] on an object without that property, a
    [TypeError] on [null]. *)
Definition js_length (p : Payload) : M (option nat) :=
  match p with
  | PNull => throw TypeError
  | PCourses cs => ret (Some (length cs))
  | _ => ret None
  end.

(** [v.title] inside a log line: a [TypeError] on [null]. *)
Definition js_title (p : Payload) : M (option string) :=
  match p with
  | PNull => throw TypeError
  | PCourse c => ret (Some (title c))
  | _ => ret None
  end.

(** [v._id] on a value known not to be [null]. *)
Definition payload_id (p : Payload) : option string :=
  match p with
  | PCourse c => _id c
  | _ => None
  end.

Definition payload_truthy (p : Payload) : bool :=
  match p with
  | PNull => false
  | _ => true
  end.

(** One line of the table [checkAllStorage] prints: [count] is
    [data.length], which is [undefined] for a value that is no array. *)
Module Report.
Record entry := { count : option nat; example : string; lastUpdated : string }.
End Report.

(** [if (str)] on the result of [getItem]: [null] and the empty string are
    falsy. *)
Definition nonempty (t : option Text) : option Text :=
  match t with
  | Some x => if text_truthy x then Some x else None
  | None => None
  end.

(** A value inside a template literal: [undefined] prints as the word. *)
Definition template (v : option string) : string :=
  match v with
  | Some s => s
  | None => "undefined"
  end.

(** [{ ...c, ...course }] on records read from storage: the properties
    [course] carries win, the ones it lacks are taken from [c]. *)
Definition merge (c course : Course) : Course :=
  {| _id := match _id course with Some i => Some i | None => _id c end;
     title := title course; description := description course;
     instructor := instructor course; thumbnail := thumbnail course;
     category := match category course with
                 | CatUndefined => category c
                 | v => v
                 end;
     level := level course;
     updatedAt := match updatedAt course with Some u => Some u | None => updatedAt c end |}.

Fixpoint for_each {A B} (f : A -> M B) (l : list A) : M (list B) :=
  match l with
  | [] => ret []
  | x :: l' => let! y := f x in let! ys := for_each f l' in ret (y :: ys)
  end.

(** ** Client code *)

Section Client.

(** Whether the browser accepts a write of [v] under key [k] into the given
    storage; a refused write raises [QuotaExceededError]. *)
Variable accepts : gmap string Text -> string -> Text -> bool.

(** The result of [getToken()] of [./auth] during the run. *)
Variable token : option string.

(** [API_BASE_URL] of [../config], used by [mongoSync]. *)
Variable API_BASE_URL : string.

(** [COURSES_ENDPOINT] of the global synchronisation script. *)
Variable COURSES_ENDPOINT : string.

(** [new Date(ms).toISOString()]. *)
Variable toISOString : N -> string.

Definition setItem (k : string) (v : Text) : M unit :=
  fun w =>
    if accepts (localStorage w) k v
    then (set_storage (<[k := v]> (localStorage w)) w, Ok tt)
    else (w, Throw QuotaExceededError).

(** *** sync-courses-global.js *)

(** Lines 73-82 (and 84-93): [findIndex] by [_id], then replace at that
    index or [push]. *)
Definition upsertOne (course : Course) (courses : list Course) : list Course :=
  match list_find (fun c => _id c = _id course) courses with
  | Some (i, _) => <[i := course]> courses
  | None => courses ++ [course]
  end.

(** Lines 52-62 (and 64-71): read one slot, defaulting to the empty array
    when the slot is missing, empty or unparseable. *)
Definition read_slot (k : string) : M Payload :=
  try_catch
    (let! str := getItem k in
     match str with
     | Some t => if text_truthy t then JSON_parse t else ret (PCourses [])
     | None => ret (PCourses [])
     end)
    (fun _ => ret (PCourses [])).

Definition syncLocalStorage (course : Course) : M unit :=
  let! adminCourses := read_slot "adminCourses" in
  let! eduTubeCourses := read_slot "edutube_courses" in
  let! admin := as_array adminCourses in
  let adminCourses := PCourses (upsertOne course admin) in
  let! edutube := as_array eduTubeCourses in
  let eduTubeCourses := PCourses (upsertOne course edutube) in
  setItem "adminCourses" (JSON_stringify adminCourses) ;;
  setItem "edutube_courses" (JSON_stringify eduTubeCourses) ;;
  setItem "courses_data" (JSON_stringify adminCourses) ;;
  setItem "user_courses" (JSON_stringify adminCourses).

Definition no_cache_headers : list (string * string) :=
  [("Cache-Control", "no-cache, no-store, must-revalidate");
   ("Pragma", "no-cache");
   ("Expires", "0")].

(** The body of the [try] block of [fetchMongoDBCourses]. *)
Definition fetchMongoDBCourses_try (forceRefresh : bool) : M Payload :=
  let! target :=
    (if forceRefresh
     then (let! now := Date_now in ret (COURSES_ENDPOINT +:+ "?_t=" +:+ pretty now))
     else ret COURSES_ENDPOINT) in
  let! response :=
    fetch {| url := target; method := "GET"; headers := no_cache_headers; body := None |} in
  if negb (response_ok response)
  then throw (Error ("API returned " +:+ pretty (status response)))
  else
    let! courses := response_json response in
    js_length courses ;;
    setItem "adminCourses" (JSON_stringify courses) ;;
    setItem "edutube_courses" (JSON_stringify courses) ;;
    setItem "courses_data" (JSON_stringify courses) ;;
    setItem "user_courses" (JSON_stringify courses) ;;
    ret courses.

Definition fetchMongoDBCourses (forceRefresh : bool) : M Payload :=
  try_catch (fetchMongoDBCourses_try forceRefresh) (fun _ => ret (PCourses [])).

(** [mongoDbCourses && mongoDbCourses.length > 0]. *)
Definition nonempty_listing (p : Payload) : option nat :=
  match p with
  | PCourses cs => if (0 <? length cs)%nat then Some (length cs) else None
  | _ => None
  end.

Definition forceSync : M Z :=
  try_catch
    (let! mongoDbCourses := fetchMongoDBCourses true in
     match nonempty_listing mongoDbCourses with
     | Some n => ret (Z.of_nat n)
     | None => ret 0%Z
     end)
    (fun _ => ret (-1)%Z).

(** *** mongoSync *)

(** The [category] of the request payload built by [saveToMongoDB]:
    [typeof c === 'object' ? (c._id || c.name || 'web-development') : c].
    [typeof null] is ['object'], so reading [null._id] raises. *)
Definition payload_category (c : CategoryValue) : M CategoryValue :=
  match c with
  | CatObj o =>
      match js_or (js_or (Category._id o) (Category.name o)) (Some "web-development") with
      | Some s => ret (CatStr s)
      | None => ret CatUndefined
      end
  | CatNull => throw TypeError
  | _ => ret c
  end.

Definition with_category (course : Course) (c : CategoryValue) : Course :=
  {| _id := _id course; title := title course; description := description course;
     instructor := instructor course; thumbnail := thumbnail course;
     category := c; level := level course; updatedAt := updatedAt course |}.

Definition bearer (t : string) : string * string :=
  ("Authorization", "Bearer " +:+ t).

(** [const token = getToken(); if (!token) throw new Error(msg)]. *)
Definition require_token (msg : string) : M string :=
  match token with
  | Some t => if truthy token then ret t else throw (Error msg)
  | None => throw (Error msg)
  end.

Definition saveToMongoDB (course : Course) : M Payload :=
  let! t := require_token "Authentication required to save courses" in
  let! cat := payload_category (category course) in
  let payload := with_category course cat in
  let verb := if truthy (_id course) then "PUT" else "POST" in
  let apiUrl :=
    match _id course with
    | Some i => if truthy (_id course)
                then API_BASE_URL +:+ "/api/courses/" +:+ i
                else API_BASE_URL +:+ "/api/courses"
    | None => API_BASE_URL +:+ "/api/courses"
    end in
  let! response :=
    fetch {| url := apiUrl; method := verb;
             headers := [("Content-Type", "application/json"); bearer t];
             body := Some (JSON_stringify (PCourse payload)) |} in
  if negb (response_ok response)
  then
    let! errorText := response_text response in
    throw (Error ("Failed to save course: " +:+ pretty (status response) +:+ " "
                  +:+ text_or errorText (statusText response)))
  else
    let! savedCourse := response_json response in
    js_title savedCourse ;;
    ret savedCourse.

Definition deleteFromMongoDB (courseId : string) : M bool :=
  let! t := require_token "Authentication required to delete courses" in
  let! response :=
    fetch {| url := API_BASE_URL +:+ "/api/courses/" +:+ courseId;
             method := "DELETE"; headers := [bearer t]; body := None |} in
  if negb (response_ok response)
  then
    let! errorText := response_text response in
    throw (Error ("Failed to delete course: " +:+ pretty (status response) +:+ " "
                  +:+ text_or errorText (statusText response)))
  else ret true.

Definition fetchFromMongoDB : M Payload :=
  let headers0 := [("Content-Type", "application/json")] in
  let headers1 :=
    match token with
    | Some t => if truthy token then (headers0 ++ [bearer t])%list else headers0
    | None => headers0
    end in
  let! response :=
    fetch {| url := API_BASE_URL +:+ "/api/courses"; method := "GET";
             headers := headers1; body := None |} in
  if negb (response_ok response)
  then
    let! errorText := response_text response in
    throw (Error ("Failed to fetch courses: " +:+ pretty (status response) +:+ " "
                  +:+ text_or errorText (statusText response)))
  else
    let! courses := response_json response in
    js_length courses ;;
    ret courses.

(** [courses.length] as the returned count: a number only for an array. *)
Definition verifyMongoDBConnection : M (option nat) :=
  try_catch
    (let! courses := fetchFromMongoDB in js_length courses)
    (fun _ => ret (Some 0%nat)).
(** *** courseUtils *)

Definition STORAGE_KEY : string := "edutube_courses".

(** [{ ...course, _id: id, updatedAt: stamp }]. *)
Definition with_id_and_stamp (course : Course) (i : option string) (stamp : string) : Course :=
  {| _id := i; title := title course; description := description course;
     instructor := instructor course; thumbnail := thumbnail course;
     category := category course; level := level course; updatedAt := Some stamp |}.

(** Lines 52-61 of [saveCourse]: [some] by [_id], then [push] or [map]. *)
Definition upsertAll (updatedCourse : Course) (courses : list Course) : list Course :=
  if existsb (fun c => bool_decide (_id c = _id updatedCourse)) courses
  then map (fun c => if bool_decide (_id c = _id updatedCourse) then updatedCourse else c) courses
  else courses ++ [updatedCourse].

(** The fall-back read shared by [getCourses] (lines 119-129). *)
Definition read_local : M Payload :=
  let! coursesStr := getItem STORAGE_KEY in
  match coursesStr with
  | Some t =>
      if text_truthy t
      then try_catch (JSON_parse t) (fun _ => ret (PCourses []))
      else ret (PCourses [])
  | None => ret (PCourses [])
  end.

(** The [forceRefresh] block of [getCourses]: [Some p] when the function
    returns [p] from inside the block, [None] when control falls through
    to the storage read. *)
Definition getCourses_refresh : M (option Payload) :=
  try_catch
    (let! mongoDbCourses := fetchFromMongoDB in
     match nonempty_listing mongoDbCourses with
     | Some _ =>
         setItem STORAGE_KEY (JSON_stringify mongoDbCourses) ;;
         setItem "adminCourses" (JSON_stringify mongoDbCourses) ;;
         setItem "courses_data" (JSON_stringify mongoDbCourses) ;;
         setItem "user_courses" (JSON_stringify mongoDbCourses) ;;
         ret (Some mongoDbCourses)
     | None => ret None
     end)
    (fun _ => ret None).

Definition getCourses (forceRefresh : bool) : M Payload :=
  try_catch
    (let! early := (if forceRefresh then getCourses_refresh else ret None) in
     match early with
     | Some p => ret p
     | None => read_local
     end)
    (fun _ => ret (PCourses [])).

(** The count [verifyMongoDBSync] hands back is whatever
    [verifyMongoDBConnection] computed. *)
Definition verifyMongoDBSync (verbose : bool) : M (option nat) :=
  try_catch
    (let! count := verifyMongoDBConnection in
     (if verbose
      then (let! localCourses := getCourses false in
            js_length localCourses ;; ret tt)
      else ret tt) ;;
     ret count)
    (fun _ => ret (Some 0%nat)).

Definition saveCourse (course : Course) : M Course :=
  let! savedCourse := saveToMongoDB course in
  if negb (payload_truthy savedCourse && truthy (payload_id savedCourse))
  then throw (Error "MongoDB did not return a valid course with _id")
  else
    let! existing := read_slot STORAGE_KEY in
    let! now := Date_now in
    let updatedCourse := with_id_and_stamp course (payload_id savedCourse) (toISOString now) in
    let! courses := as_array existing in
    let courses := PCourses (upsertAll updatedCourse courses) in
    setItem STORAGE_KEY (JSON_stringify courses) ;;
    setItem "adminCourses" (JSON_stringify courses) ;;
    setItem "courses_data" (JSON_stringify courses) ;;
    setItem "user_courses" (JSON_stringify courses) ;;
    try_catch (verifyMongoDBSync false ;; ret tt) (fun _ => ret tt) ;;
    ret updatedCourse.

(** [courses.filter(course => course._id !== courseId)]. *)
Definition removeOne (courseId : string) (courses : list Course) : list Course :=
  filter (fun c => _id c <> Some courseId) courses.

Definition deleteCourse (courseId : string) : M bool :=
  deleteFromMongoDB courseId ;;
  let! coursesStr := getItem STORAGE_KEY in
  match coursesStr with
  | Some t =>
      if text_truthy t
      then
        try_catch
          (let! parsed := JSON_parse t in
           let! courses := as_array parsed in
           let updatedCourses := PCourses (removeOne courseId courses) in
           setItem STORAGE_KEY (JSON_stringify updatedCourses) ;;
           setItem "adminCourses" (JSON_stringify updatedCourses) ;;
           setItem "courses_data" (JSON_stringify updatedCourses) ;;
           setItem "user_courses" (JSON_stringify updatedCourses))
          (fun _ => ret tt)
      else ret tt
  | None => ret tt
  end ;;
  ret true.

(** *** sync-courses-global.js, continued *)

(** The characters of [JSON.stringify(v)]. *)
Variable JSON_text : Payload -> string.

(** [new Date(stamp).toLocaleString()]. *)
Variable toLocaleString : string -> string.

(** A stored text spliced into a template literal. *)
Definition text_chars (t : Text) : string :=
  match t with
  | Json p => JSON_text p
  | Malformed s => s
  end.

Definition checkCourseExistsInMongoDB (courseId : option string) : M bool :=
  try_catch
    (let! response :=
       fetch {| url := COURSES_ENDPOINT +:+ "/" +:+ template courseId;
                method := "GET"; headers := []; body := None |} in
     if response_ok response
     then
       let! found := response_json response in
       match found with
       | PNull => throw TypeError
       | _ => ret (truthy (payload_id found))
       end
     else ret false)
    (fun _ => ret false).

Definition saveCourseToDB (course : Course) : M bool :=
  try_catch
    (let! stored := getItem "token" in
     match nonempty stored with
     | None => ret false
     | Some t =>
         let verb := if truthy (_id course) then "PUT" else "POST" in
         let target :=
           if truthy (_id course)
           then COURSES_ENDPOINT +:+ "/" +:+ template (_id course)
           else COURSES_ENDPOINT in
         let! response :=
           fetch {| url := target; method := verb;
                    headers := [("Content-Type", "application/json");
                                bearer (text_chars t)];
                    body := Some (JSON_stringify (PCourse course)) |} in
         if negb (response_ok response)
         then throw (Error ("API returned " +:+ pretty (status response)))
         else
           let! savedCourse := response_json response in
           js_title savedCourse ;;
           ret true
     end)
    (fun _ => ret false).

Definition syncCourse (course : Course) : M bool :=
  syncLocalStorage course ;;
  try_catch
    (fetchMongoDBCourses true ;;
     let! doesExistInMongoDB := checkCourseExistsInMongoDB (_id course) in
     (if negb doesExistInMongoDB
      then (saveCourseToDB course ;; ret tt)
      else ret tt) ;;
     fetchMongoDBCourses true ;;
     ret true)
    (fun _ => ret false).

(** The entry [checkAllStorage] computes from a parsed value. *)
Definition describe (data : Payload) : M Report.entry :=
  let! n := js_length data in
  match data with
  | PCourses (first :: _) =>
      ret {| Report.count := n; Report.example := title first;
             Report.lastUpdated :=
               if truthy (updatedAt first)
               then toLocaleString (template (updatedAt first))
               else "Unknown" |}
  | _ => ret {| Report.count := n; Report.example := "N/A";
                Report.lastUpdated := "Unknown" |}
  end.

(** One round of the loop over [storageKeys]. *)
Definition storage_entry (key : string) : M (string * Report.entry) :=
  try_catch
    (let! dataStr := getItem key in
     match nonempty dataStr with
     | Some t =>
         let! data := JSON_parse t in
         let! e := describe data in
         ret (key, e)
     | None =>
         ret (key, {| Report.count := Some 0; Report.example := "N/A";
                      Report.lastUpdated := "Not found" |})
     end)
    (fun _ => ret (key, {| Report.count := Some 0; Report.example := "Error";
                           Report.lastUpdated := "Error parsing" |})).

Definition checkAllStorage : M (list (string * Report.entry)) :=
  let! local := for_each storage_entry
                  ["adminCourses"; "edutube_courses"; "courses_data"; "user_courses"] in
  let! remote :=
    try_catch
      (let! mongoDbCourses := fetchMongoDBCourses true in
       let! e := describe mongoDbCourses in
       ret ("mongoDB", e))
      (fun _ => ret ("mongoDB", {| Report.count := Some 0; Report.example := "Error";
                                   Report.lastUpdated := "Error fetching" |})) in
  ret (local ++ [remote]).

End Client.

(** ** The storage helpers of the admin dashboard

    The second document of [src/project/src/utils/courseUtils.d.ts]:
    synchronous helpers that only touch browser storage. *)

Module CourseStorage.

Section Storage.

Variable accepts : gmap string Text -> string -> Text -> bool.

Definition COURSE_STORAGE_KEY : string := "edutube_courses".

Definition getCourses : M Payload :=
  try_catch
    (let! coursesJson := getItem COURSE_STORAGE_KEY in
     match nonempty coursesJson with
     | Some t => JSON_parse t
     | None =>
         let! oldCoursesJson := getItem "adminCourses" in
         match nonempty oldCoursesJson with
         | Some t =>
             let! courses := JSON_parse t in
             setItem accepts COURSE_STORAGE_KEY t ;;
             ret courses
         | None => ret (PCourses [])
         end
     end)
    (fun _ => ret (PCourses [])).

(** The four writes every helper ends with. *)
Definition write_all (updatedCourses : list Course) : M unit :=
  setItem accepts COURSE_STORAGE_KEY (JSON_stringify (PCourses updatedCourses)) ;;
  setItem accepts "adminCourses" (JSON_stringify (PCourses updatedCourses)) ;;
  setItem accepts "courses_data" (JSON_stringify (PCourses updatedCourses)) ;;
  setItem accepts "user_courses" (JSON_stringify (PCourses updatedCourses)).

Definition saveCourse (course : Course) : M unit :=
  try_catch
    (let! stored := getCourses in
     let! existingCourses := as_array stored in
     if negb (existsb (fun c => bool_decide (_id c = _id course)) existingCourses)
     then write_all (existingCourses ++ [course])
     else write_all
            (map (fun c => if bool_decide (_id c = _id course) then merge c course else c)
                 existingCourses))
    (fun _ =>
       setItem accepts COURSE_STORAGE_KEY (JSON_stringify (PCourses [course])) ;;
       setItem accepts "adminCourses" (JSON_stringify (PCourses [course]))).

Definition deleteCourse (courseId : string) : M unit :=
  try_catch
    (let! stored := getCourses in
     let! courses := as_array stored in
     write_all (filter (fun c => _id c <> Some courseId) courses))
    (fun _ => ret tt).



End Storage.

End CourseStorage.

(** ** Server side: how a category is stored *)

(** The [set] function of [CourseSchema.category]. *)
Definition CourseSchema_category_set (v : CategoryValue) : CategoryValue :=
  match v with
  | CatObj o =>
      if truthy (Category._id o) then
        match Category._id o with Some i => CatStr i | None => v end
      else if truthy (Category.id o) then
        match Category.id o with Some i => CatStr i | None => v end
      else v
  | _ => v
  end.

(** The [get] function of [CourseSchema.category]: both branches return the
    stored value. *)
Definition CourseSchema_category_get (v : CategoryValue) : CategoryValue :=
  match v with
  | CatObj o => if truthy (Category.name o) then v else v
  | _ => v
  end.

(** Lines 84-105 of [POST /api/courses].  [findById] is the lookup
    [mongoose.model('Category').findById]: it yields the [_id] of the
    category document found, nothing, or raises. *)
Definition categoryToSave (findById : string -> Result (option string))
    (category : CategoryValue) : CategoryValue :=
  match category with
  | CatStr s =>
      match findById s with
      | Ok (Some oid) => CatStr oid
      | Ok None => category
      | Throw _ => category
      end
  | CatObj o =>
      if truthy (Category._id o) then
        match Category._id o with Some i => CatStr i | None => category end
      else category
  | _ => category
  end.

(** A category in the embedded [{id, name}] form: an object carrying an
    identity and a name. *)
Definition embedded_pair (v : CategoryValue) : bool :=
  match v with
  | CatObj o => (truthy (Category._id o) || truthy (Category.id o)) && truthy (Category.name o)
  | _ => false
  end.

Definition bare_id (v : CategoryValue) : bool :=
  match v with
  | CatStr _ => true
  | _ => false
  end.

(** ** Server side: the authentication middleware

    [src/middleware/auth.js], and the role check the protected handlers of
    [src/routes/courses.js] start with. *)

Module User.
Record t := { id : string; role : string }.
End User.

(** [s.split(sep)] for a one-character separator. *)
Fixpoint split_on (sep : Ascii.ascii) (s : string) : list string :=
  match s with
  | EmptyString => [EmptyString]
  | String c s' =>
      if Ascii.eqb c sep
      then EmptyString :: split_on sep s'
      else match split_on sep s' with
           | [] => [String c EmptyString]
           | field :: fields => String c field :: fields
           end
  end.

Definition space : Ascii.ascii := Ascii.ascii_of_nat 32.

(** How the middleware ends: a response is sent, or [next()] runs with
    [req.user] set. *)
Inductive Verdict :=
| Deny (status : nat) (msg : string)
| Next (user : User.t).

Section Middleware.

(** [req.header(name)]. *)
Variable header : string -> option string.

(** [jwt.verify(token, secret)]: it raises ([None]) or yields the decoded
    payload, whose [user] property may be missing. *)
Variable verify : string -> option (option User.t).

(** The token the middleware settles on: [x-auth-token] first, then the
    second field of a [Bearer] authorization header. *)
Definition presented_token : option string :=
  if truthy (header "x-auth-token")
  then header "x-auth-token"
  else
    match header "Authorization" with
    | Some authHeader =>
        if truthy (Some authHeader) && String.prefix "Bearer " authHeader
        then split_on space authHeader !! 1%nat
        else header "x-auth-token"
    | None => header "x-auth-token"
    end.

Definition auth : Verdict :=
  match presented_token with
  | Some token =>
      if truthy (Some token)
      then
        match verify token with
        | Some (Some user) => Next user
        | Some None => Deny 401 "Token is not valid"
        | None => Deny 401 "Token is not valid"
        end
      else Deny 401 "No token, authorization denied"
  | None => Deny 401 "No token, authorization denied"
  end.

(** A protected handler: the middleware, then
    [if (req.user.role !== 'admin') return res.status(403)]; [true] when
    the handler goes on to its work for that user. *)
Definition admin_only : Verdict :=
  match auth with
  | Next user =>
      if String.eqb (User.role user) "admin"
      then Next user
      else Deny 403 "Access denied"
  | denied => denied
  end.

End Middleware.

(** ** The poller of sync-courses-global.js

    The event loop is modelled at the level of its events.  The state
    records the module variable [refreshInterval], the interval timers alive
    in the browser, and the calls of [fetchMongoDBCourses(true)] that have
    been started and whose promise has not settled yet. *)

Module Poller.

Record State := {
  refreshInterval : option positive;   (* handle of the interval, or [null] *)
  timers : gmap positive N;            (* live intervals and their period *)
  next_handle : positive;              (* handle [setInterval] returns next *)
  in_flight : nat;                     (* fetches started and not settled *)
  started : nat                        (* fetches started so far *)
}.

Definition initial : State :=
  {| refreshInterval := None; timers := ∅; next_handle := 1%positive;
     in_flight := 0; started := 0 |}.

Definition clearInterval (h : positive) (s : State) : State :=
  {| refreshInterval := refreshInterval s; timers := delete h (timers s);
     next_handle := next_handle s; in_flight := in_flight s; started := started s |}.

(** A call of [fetchMongoDBCourses(true)] begins: it runs up to its
    [await fetch(...)] and is then pending. *)
Definition begin_fetch (s : State) : State :=
  {| refreshInterval := refreshInterval s; timers := timers s;
     next_handle := next_handle s; in_flight := S (in_flight s);
     started := S (started s) |}.

Definition setInterval (intervalMs : N) (s : State) : State :=
  {| refreshInterval := Some (next_handle s);
     timers := <[next_handle s := intervalMs]> (timers s);
     next_handle := Pos.succ (next_handle s);
     in_flight := in_flight s; started := started s |}.

Definition startAutoRefresh (intervalMs : N) (s : State) : State :=
  let s1 := match refreshInterval s with
            | Some h => clearInterval h s
            | None => s
            end in
  setInterval intervalMs (begin_fetch s1).

Definition stopAutoRefresh (s : State) : State * bool :=
  match refreshInterval s with
  | Some h =>
      let s1 := clearInterval h s in
      ({| refreshInterval := None; timers := timers s1; next_handle := next_handle s1;
          in_flight := in_flight s1; started := started s1 |}, true)
  | None => (s, false)
  end.

(** What the event loop delivers: an interval timer fires, or a pending
    fetch settles. *)
Inductive Event :=
| Tick (h : positive)
| Settle.

(** The interval callback is [async () => { await fetchMongoDBCourses(true) }]:
    a tick of a live timer begins a fetch. *)
Definition step (s : State) (e : Event) : State :=
  match e with
  | Tick h =>
      match timers s !! h with
      | Some _ => begin_fetch s
      | None => s
      end
  | Settle =>
      {| refreshInterval := refreshInterval s; timers := timers s;
         next_handle := next_handle s; in_flight := pred (in_flight s);
         started := started s |}
  end.

Definition run (s : State) (es : list Event) : State := fold_left step es s.

(** The fetches in flight one after another along a run. *)
Fixpoint in_flight_trace (s : State) (es : list Event) : list nat :=
  match es with
  | [] => [in_flight s]
  | e :: es' => in_flight s :: in_flight_trace (step s e) es'
  end.


(** At most the interval the module variable points at is live, and
    handles yet to be issued are not in use. *)
Definition tidy (s : State) : Prop :=
  (forall h, is_Some (timers s !! h) -> refreshInterval s = Some h)
  /\ (forall h, is_Some (timers s !! h) -> (h < next_handle s)%positive).

(** What can happen to the poller: its two entry points are called, or the
    event loop delivers an event. *)
Inductive Action :=
| CallStart (intervalMs : N)
| CallStop
| Deliver (e : Event).

Definition act (s : State) (a : Action) : State :=
  match a with
  | CallStart intervalMs => startAutoRefresh intervalMs s
  | CallStop => fst (stopAutoRefresh s)
  | Deliver e => step s e
  end.

Definition perform (s : State) (acts : list Action) : State := fold_left act acts s.

End Poller.

(** ** Observations on the Local Mirror *)

(** The four redundant slots. *)
Definition slots : list string :=
  ["adminCourses"; "edutube_courses"; "courses_data"; "user_courses"].

(** What a slot parses to, with the default the readers use for a missing,
    empty or unparseable slot. *)
Definition slot_payload (w : World) (k : string) : Payload :=
  match localStorage w !! k with
  | Some (Json p) => p
  | _ => PCourses []
  end.

(** Storage after four writes in a row. *)
Definition written4 (k1 k2 k3 k4 : string) (v1 v2 v3 v4 : Text)
    (s : gmap string Text) : gmap string Text :=
  <[k4 := v4]> (<[k3 := v3]> (<[k2 := v2]> (<[k1 := v1]> s))).

(** The records a slot holds. *)
Definition slot_courses (w : World) (k : string) : list Course :=
  match slot_payload w k with
  | PCourses cs => cs
  | _ => []
  end.

(** The records of a slot that carry the identity [i]. *)
Definition with_identity (i : option string) (cs : list Course) : list Course :=
  filter (fun c => _id c = i) cs.

(** The records still waiting for an identity. *)
Definition pending (cs : list Course) : list Course := with_identity None cs.

Definition has_header (name : string) (r : Request) : bool :=
  existsb (fun h => String.eqb (fst h) name) (headers r).

(** A request defeats caches when its [Cache-Control] header is the
    [no-store] directive list. *)
Definition defeats_caches (r : Request) : bool :=
  existsb (fun h => String.eqb (fst h) "Cache-Control"
                    && String.eqb (snd h) "no-cache, no-store, must-revalidate")
          (headers r).

(** The remote call fails: the network rejects the request, or the answer
    carries a status outside 200-299. *)
Definition remote_fails (w : World) : bool :=
  match network w with
  | Http r :: _ => negb (response_ok r)
  | _ => true
  end.

(** ** Sample data *)

Definition course (i : option string) (t : string) (c : CategoryValue) : Course :=
  {| _id := i; title := t; description := "d"; instructor := "i";
     thumbnail := "t.png"; category := c; level := "beginner"; updatedAt := None |}.

Definition web : CategoryValue :=
  CatObj {| Category._id := Some "c1"; Category.id := None; Category.name := Some "Web" |}.

Definition world (s : gmap string Text) (net : list Response) : World :=
  {| localStorage := s; network := net; sent := []; clock := 1730000000%N |}.

(** A browser that never refuses a write. *)
Definition roomy : gmap string Text -> string -> Text -> bool := fun _ _ _ => true.

(** The number of records a stored text holds, as a measure of its size. *)
Definition text_size (t : Text) : nat :=
  match t with
  | Json (PCourses cs) => length cs
  | _ => 0
  end.

(** A browser with a quota: a write is refused when the records held by all
    slots together would exceed [quota]. *)
Definition quota_policy (quota : nat) : gmap string Text -> string -> Text -> bool :=
  fun s k v =>
    (map_fold (fun _ t n => text_size t + n) 0 (<[k := v]> s) <=? quota)%nat.

Definition iso (ms : N) : string := pretty ms.

Definition tok : option string := Some "tok".

Definition api : string := "http://localhost:5000".

Definition endpoint : string := "/api/courses".

Definition rec_x : Course := course (Some "x") "A" web.

Definition rec_1 : Course := course (Some "1") "A" web.

Definition rec_2 : Course := course (Some "2") "B" web.

(** A mirror whose four slots all hold [cs]. *)
Definition mirror_of (cs : list Course) : gmap string Text :=
  written4 "adminCourses" "edutube_courses" "courses_data" "user_courses"
    (Json (PCourses cs)) (Json (PCourses cs)) (Json (PCourses cs)) (Json (PCourses cs)) ∅.

Definition quote : string := String (Ascii.ascii_of_nat 34) "".

(** The body [res.json({ msg })] puts on the wire. *)
Definition msg_text (msg : string) : string :=
  "{" +:+ quote +:+ "msg" +:+ quote +:+ ":" +:+ quote +:+ msg +:+ quote +:+ "}".

(** [res.status(404).json({ msg: 'Course not found' })]. *)
Definition not_found : Response :=
  Http {| status := 404; statusText := "Not Found";
          text := msg_text "Course not found";
          json := Some (PMsg "Course not found") |}.

(** [res.json({ msg: 'Course removed' })]. *)
Definition removed : Response :=
  Http {| status := 200; statusText := "OK";
          text := msg_text "Course removed";
          json := Some (PMsg "Course removed") |}.

(** [res.status(500).send('Server error')]. *)
Definition server_error : Response :=
  Http {| status := 500; statusText := "Internal Server Error";
          text := "Server error"; json := None |}.

(** A 200 answer whose body is the JSON value [p].  The code reads the body
    of such an answer through [json()] alone, and the samples leave its
    raw text empty. *)
Definition ok_json (p : Payload) : Response :=
  Http {| status := 200; statusText := "OK"; text := ""; json := Some p |}.

Definition listing (cs : list Course) : Response := ok_json (PCourses cs).

(** Only the first slot is filled, with two records. *)
Definition crowded : gmap string Text :=
  <["adminCourses" := Json (PCourses [rec_x; rec_1])]> ∅.

Definition new_course : Course := course None "New" (CatStr "c1").

Definition rec_T1 : Course := course (Some "x") "T1" web.

Definition rec_T2 : Course := course (Some "x") "T2" web.

Definition draft_1 : Course := course None "Draft one" web.

Definition draft_2 : Course := course None "Draft two" web.

Definition created : Response := ok_json (PCourse (course (Some "42") "New" (CatStr "c1"))).

(** An answer of the network that makes a remote call fail. *)
Definition answer_fails (r : Response) : bool :=
  match r with
  | Http r => negb (response_ok r)
  | Rejected => true
  end.

(** Every answer the network still has in store is a failure. *)
Definition offline (w : World) : Prop :=
  Forall (fun r => answer_fails r = true) (network w).

(** The world after one [fetch]: its answer is used up and the request is
    on record. *)
Definition fetched (req : Request) (w : World) : World := fst (fetch req w).

Definition probe (ep : string) (courseId : option string) : Request :=
  {| url := ep +:+ "/" +:+ template courseId; method := "GET"; headers := [];
     body := None |}.

Definition stored_token : gmap string Text := <["token" := Malformed "jwt"]> (mirror_of [rec_1]).

Definition plain : Payload -> string := fun _ => "".

Definition found (c : Course) : Response := ok_json (PCourse c).

Definition plain_date : string -> string := fun stamp => stamp.

(** The two primary slots hold two records each. *)
Definition two_slots : gmap string Text :=
  <["adminCourses" := Json (PCourses [rec_1; rec_2])]>
    (<["edutube_courses" := Json (PCourses [rec_1; rec_2])]> ∅).

(** Only the old key is filled. *)
Definition legacy : gmap string Text := <["adminCourses" := Json (PCourses [rec_1])]> ∅.

(** ** Running the monad *)

Section Runs.

Context {A B : Type}.

Lemma bind_ok (m : M A) (k : A -> M B) w w' a :
  m w = (w', Ok a) -> bind m k w = k a w'.
Proof. unfold bind. by intros ->. Qed.

Lemma bind_throw (m : M A) (k : A -> M B) w w' e :
  m w = (w', Throw e) -> bind m k w = (w', Throw e).
Proof. unfold bind. by intros ->. Qed.

Lemma bind_inv (m : M A) (k : A -> M B) w w2 r :
  bind m k w = (w2, r) ->
  (exists w1 a, m w = (w1, Ok a) /\ k a w1 = (w2, r))
  \/ (exists e, m w = (w2, Throw e) /\ r = Throw e).
Proof.
  unfold bind. destruct (m w) as [w1 [a|e]]; intros Hk.
  - left. by exists w1, a.
  - right. exists e. by simplify_eq.
Qed.

Lemma try_catch_inv (m : M A) (h : Exn -> M A) w w2 r :
  try_catch m h w = (w2, r) ->
  (exists a, m w = (w2, Ok a) /\ r = Ok a)
  \/ (exists w1 e, m w = (w1, Throw e) /\ h e w1 = (w2, r)).
Proof.
  unfold try_catch. destruct (m w) as [w1 [a|e]]; intros Hk.
  - left. exists a. by simplify_eq.
  - right. by exists w1, e.
Qed.

End Runs.

(** ** Which computations leave browser storage alone *)

Definition preserves_storage {A} (m : M A) : Prop :=
  forall w w' r, m w = (w', r) -> localStorage w' = localStorage w.

Create HintDb frame.

Lemma preserves_ret {A} (a : A) : preserves_storage (ret a).
Proof. intros w w' r [= <- _]. done. Qed.

Lemma preserves_throw {A} (e : Exn) : preserves_storage (@throw A e).
Proof. intros w w' r [= <- _]. done. Qed.

Lemma preserves_bind {A B} (m : M A) (k : A -> M B) :
  preserves_storage m -> (forall a, preserves_storage (k a)) ->
  preserves_storage (bind m k).
Proof.
  intros Hm Hk w w2 r [(w1 & a & H1 & H2)|(e & H1 & _)]%bind_inv.
  - rewrite (Hk _ _ _ _ H2). eauto.
  - eauto.
Qed.

Lemma preserves_try_catch {A} (m : M A) (h : Exn -> M A) :
  preserves_storage m -> (forall e, preserves_storage (h e)) ->
  preserves_storage (try_catch m h).
Proof.
  intros Hm Hh w w2 r [(a & H1 & _)|(w1 & e & H1 & H2)]%try_catch_inv.
  - eauto.
  - rewrite (Hh _ _ _ _ H2). eauto.
Qed.

Lemma preserves_getItem k : preserves_storage (getItem k).
Proof. intros w w' r [= <- _]. done. Qed.

Lemma preserves_Date_now : preserves_storage Date_now.
Proof. intros w w' r [= <- _]. done. Qed.

Lemma preserves_fetch req : preserves_storage (fetch req).
Proof.
  intros w w' r. unfold fetch.
  destruct (network w) as [|[|[s st tx b]] rest]; intros [= <- _]; done.
Qed.

Lemma preserves_response_json r : preserves_storage (response_json r).
Proof. unfold response_json. destruct (json r); auto using preserves_ret, preserves_throw. Qed.

Lemma preserves_response_text r : preserves_storage (response_text r).
Proof. unfold response_text. auto using preserves_ret. Qed.

Lemma preserves_JSON_parse t : preserves_storage (JSON_parse t).
Proof. destruct t; simpl; auto using preserves_ret, preserves_throw. Qed.

Lemma preserves_as_array p : preserves_storage (as_array p).
Proof. destruct p; simpl; auto using preserves_ret, preserves_throw. Qed.

Lemma preserves_js_length p : preserves_storage (js_length p).
Proof. destruct p; simpl; auto using preserves_ret, preserves_throw. Qed.

Lemma preserves_js_title p : preserves_storage (js_title p).
Proof. destruct p; simpl; auto using preserves_ret, preserves_throw. Qed.

Lemma preserves_if {A} (b : bool) (m1 m2 : M A) :
  preserves_storage m1 -> preserves_storage m2 ->
  preserves_storage (if b then m1 else m2).
Proof. by destruct b. Qed.

#[local] Hint Resolve preserves_ret preserves_throw preserves_bind
  preserves_try_catch preserves_getItem preserves_Date_now preserves_fetch
  preserves_response_json preserves_response_text preserves_JSON_parse
  preserves_as_array
  preserves_js_length preserves_js_title preserves_if : frame.

Ltac frame :=
  repeat (intros; cbv zeta;
          first [ solve [eauto with frame]
                | apply preserves_bind
                | apply preserves_try_catch
                | case_match ]).

Lemma preserves_require_token token msg : preserves_storage (require_token token msg).
Proof. unfold require_token. frame. Qed.

Lemma preserves_payload_category c : preserves_storage (payload_category c).
Proof. unfold payload_category. frame. Qed.

#[local] Hint Resolve preserves_require_token preserves_payload_category : frame.

Lemma preserves_saveToMongoDB token base c :
  preserves_storage (saveToMongoDB token base c).
Proof. unfold saveToMongoDB. frame. Qed.

Lemma preserves_deleteFromMongoDB token base i :
  preserves_storage (deleteFromMongoDB token base i).
Proof. unfold deleteFromMongoDB. frame. Qed.

Lemma preserves_fetchFromMongoDB token base :
  preserves_storage (fetchFromMongoDB token base).
Proof. unfold fetchFromMongoDB. frame. Qed.

#[local] Hint Resolve preserves_saveToMongoDB preserves_deleteFromMongoDB
  preserves_fetchFromMongoDB : frame.

Lemma preserves_verifyMongoDBConnection token base :
  preserves_storage (verifyMongoDBConnection token base).
Proof. unfold verifyMongoDBConnection. frame. Qed.

Lemma preserves_read_slot k : preserves_storage (read_slot k).
Proof. unfold read_slot. frame. Qed.

Lemma preserves_read_local : preserves_storage read_local.
Proof. unfold read_local. frame. Qed.

#[local] Hint Resolve preserves_verifyMongoDBConnection preserves_read_slot
  preserves_read_local : frame.

Lemma preserves_getCourses_cached accepts token base :
  preserves_storage (getCourses accepts token base false).
Proof. unfold getCourses. frame. Qed.

#[local] Hint Resolve preserves_getCourses_cached : frame.

Lemma preserves_verifyMongoDBSync accepts token base verbose :
  preserves_storage (verifyMongoDBSync accepts token base verbose).
Proof. unfold verifyMongoDBSync. frame. Qed.

(** ** Reading and writing slots *)

Lemma read_slot_spec k w : read_slot k w = (w, Ok (slot_payload w k)).
Proof.
  unfold read_slot, slot_payload, try_catch, bind, getItem.
  destruct (localStorage w !! k) as [[p|s]|]; simpl; try done.
  destruct (negb (s =? ""))%string; done.
Qed.

Lemma read_local_spec w : read_local w = (w, Ok (slot_payload w STORAGE_KEY)).
Proof.
  unfold read_local, slot_payload, try_catch, bind, getItem.
  destruct (localStorage w !! STORAGE_KEY) as [[p|s]|]; simpl; try done.
  destruct (negb (s =? ""))%string; done.
Qed.

Lemma bind_setItem {A} accepts k v (K : M A) w :
  (setItem accepts k v ;; K) w =
  if accepts (localStorage w) k v
  then K (set_storage (<[k := v]> (localStorage w)) w)
  else (w, Throw QuotaExceededError).
Proof. unfold bind, setItem. by destruct (accepts _ _ _). Qed.

Lemma elem_of_slots k :
  k ∈ slots ->
  k = "adminCourses" \/ k = "edutube_courses" \/ k = "courses_data" \/ k = "user_courses".
Proof. unfold slots. rewrite !elem_of_cons, elem_of_nil. tauto. Qed.

Lemma as_array_ok p w w' cs :
  as_array p w = (w', Ok cs) -> p = PCourses cs /\ w' = w.
Proof. destruct p; simpl; unfold ret, throw; try discriminate. by intros [= -> ->]. Qed.

Lemma slot_payload_courses w k cs :
  slot_payload w k = PCourses cs -> slot_courses w k = cs.
Proof. unfold slot_courses. by intros ->. Qed.

Lemma slot_payload_insert w s k v :
  slot_payload (set_storage (<[k := Json v]> s) w) k = v.
Proof. unfold slot_payload. simpl. by rewrite lookup_insert_eq. Qed.

(** ** Upserting into a list *)

Lemma upsertOne_nil c : upsertOne c [] = [c].
Proof. done. Qed.

Lemma upsertOne_cons c x cs :
  upsertOne c (x :: cs) =
  if decide (_id x = _id c) then c :: cs else x :: upsertOne c cs.
Proof.
  unfold upsertOne. simpl. destruct (decide (_id x = _id c)); [done|].
  destruct (list_find _ cs) as [[i y]|]; done.
Qed.

Lemma upsertOne_cases c cs :
  (exists i old, cs !! i = Some old /\ _id old = _id c
     /\ (forall j y, j < i -> cs !! j = Some y -> _id y <> _id c)
     /\ upsertOne c cs = <[i := c]> cs)
  \/ (Forall (fun y => _id y <> _id c) cs /\ upsertOne c cs = cs ++ [c]).
Proof.
  unfold upsertOne.
  destruct (list_find _ cs) as [[i old]|] eqn:Hfind.
  - left. apply list_find_Some in Hfind as (Hi & Hid & Hleast).
    exists i, old. split_and!; eauto.
  - right. apply list_find_None in Hfind. done.
Qed.

Lemma length_upsertOne_found c cs :
  Exists (fun y => _id y = _id c) cs -> length (upsertOne c cs) = length cs.
Proof.
  intros Hex. destruct (upsertOne_cases c cs) as [(i & old & _ & _ & _ & ->)|[Hall _]].
  - by rewrite length_insert.
  - apply Exists_exists in Hex as (y & Hy & Hid).
    rewrite Forall_forall in Hall. by destruct (Hall y Hy).
Qed.

Lemma with_identity_upsertOne c cs :
  with_identity (_id c) (upsertOne c cs) = c :: tail (with_identity (_id c) cs).
Proof.
  unfold with_identity. induction cs as [|x cs IH].
  - rewrite upsertOne_nil. rewrite filter_cons_True; done.
  - rewrite upsertOne_cons. destruct (decide (_id x = _id c)) as [Hx|Hx].
    + rewrite filter_cons_True by done. rewrite (filter_cons_True _ x) by done. done.
    + rewrite filter_cons_False by done. rewrite (filter_cons_False _ x) by done. done.
Qed.

Lemma with_identity_upsertOne_ne i c cs :
  _id c <> i -> with_identity i (upsertOne c cs) = with_identity i cs.
Proof.
  intros Hne. unfold with_identity. induction cs as [|x cs IH].
  - rewrite upsertOne_nil. rewrite filter_cons_False; done.
  - rewrite upsertOne_cons. destruct (decide (_id x = _id c)) as [Hx|Hx].
    + rewrite filter_cons_False by done.
      rewrite (filter_cons_False _ x); [done|congruence].
    + destruct (decide (_id x = i)).
      * rewrite !filter_cons_True by done. by rewrite IH.
      * rewrite !filter_cons_False by done. done.
Qed.

Lemma upsertAll_cases c cs :
  (Exists (fun y => _id y = _id c) cs
     /\ upsertAll c cs = map (fun y => if bool_decide (_id y = _id c) then c else y) cs)
  \/ (Forall (fun y => _id y <> _id c) cs /\ upsertAll c cs = cs ++ [c]).
Proof.
  unfold upsertAll.
  destruct (existsb _ cs) eqn:Hex.
  - left. split; [|done]. apply existsb_exists in Hex as (y & Hy & Hid).
    apply Exists_exists. exists y. split; [by apply list_elem_of_In|].
    by apply bool_decide_eq_true in Hid.
  - right. split; [|done]. apply Forall_forall. intros y Hy Hid.
    assert (existsb (fun c0 => bool_decide (_id c0 = _id c)) cs = true) as Hc; [|congruence].
    apply existsb_exists. exists y. split; [by apply list_elem_of_In|].
    by apply bool_decide_eq_true.
Qed.

Lemma with_identity_upsertAll c cs :
  with_identity (_id c) (upsertAll c cs) =
  match with_identity (_id c) cs with
  | [] => [c]
  | ys => map (fun _ => c) ys
  end.
Proof.
  destruct (upsertAll_cases c cs) as [[Hex ->]|[Hall ->]].
  - unfold with_identity.
    assert (filter (fun y => _id y = _id c)
              (map (fun y => if bool_decide (_id y = _id c) then c else y) cs)
            = map (fun _ => c) (filter (fun y => _id y = _id c) cs)) as ->.
    { clear Hex. induction cs as [|x cs IH]; [done|]. simpl.
      destruct (decide (_id x = _id c)) as [Hx|Hx].
      - rewrite bool_decide_eq_true_2 by done.
        rewrite !filter_cons_True by done. simpl. by rewrite IH.
      - rewrite bool_decide_eq_false_2 by done.
        rewrite !filter_cons_False by done. done. }
    destruct (filter _ cs) eqn:Hf; [|done].
    apply Exists_exists in Hex as (y & Hy & Hid).
    assert (y ∈ filter (fun y => _id y = _id c) cs) as Hin by (by apply list_elem_of_filter).
    rewrite Hf in Hin. by apply not_elem_of_nil in Hin.
  - unfold with_identity. rewrite filter_app.
    assert (filter (fun y => _id y = _id c) cs = []) as ->.
    { clear -Hall. induction Hall as [|x cs Hx _ IH]; [done|].
      by rewrite filter_cons_False. }
    rewrite filter_cons_True by done. done.
Qed.

(** ** What the writers leave in storage *)

Lemma syncLocalStorage_ok accepts c w w' :
  syncLocalStorage accepts c w = (w', Ok tt) ->
  exists admin edutube,
    slot_payload w "adminCourses" = PCourses admin
    /\ slot_payload w "edutube_courses" = PCourses edutube
    /\ localStorage w' =
       written4 "adminCourses" "edutube_courses" "courses_data" "user_courses"
         (Json (PCourses (upsertOne c admin))) (Json (PCourses (upsertOne c edutube)))
         (Json (PCourses (upsertOne c admin))) (Json (PCourses (upsertOne c admin)))
         (localStorage w).
Proof.
  unfold syncLocalStorage.
  rewrite (bind_ok _ _ _ _ _ (read_slot_spec _ _)).
  rewrite (bind_ok _ _ _ _ _ (read_slot_spec _ _)).
  intros [(w1 & admin & [Ha ->]%as_array_ok & H)|(e & _ & ?)]%bind_inv; [|done].
  apply bind_inv in H as [(w2 & edutube & [He ->]%as_array_ok & H)|(e & _ & ?)]; [|done].
  exists admin, edutube. split_and!; [done..|].
  rewrite !bind_setItem in H. unfold setItem in H.
  repeat (destruct (accepts _ _ _) in H; [|discriminate]).
  by injection H as <-.
Qed.

Lemma saveCourse_ok accepts token base stamp c w w' c' :
  saveCourse accepts token base stamp c w = (w', Ok c') ->
  exists existing i t,
    slot_payload w STORAGE_KEY = PCourses existing
    /\ truthy i = true
    /\ c' = with_id_and_stamp c i t
    /\ localStorage w' =
       written4 STORAGE_KEY "adminCourses" "courses_data" "user_courses"
         (Json (PCourses (upsertAll c' existing))) (Json (PCourses (upsertAll c' existing)))
         (Json (PCourses (upsertAll c' existing))) (Json (PCourses (upsertAll c' existing)))
         (localStorage w).
Proof.
  unfold saveCourse.
  intros [(w1 & saved & Hsave & H)|(e & _ & ?)]%bind_inv; [|done].
  apply preserves_saveToMongoDB in Hsave.
  destruct (payload_truthy saved && truthy (payload_id saved)) eqn:Hvalid; [|done].
  apply andb_true_iff in Hvalid as [_ Hid]. simpl in H.
  rewrite (bind_ok _ _ _ _ _ (read_slot_spec _ _)) in H.
  unfold bind at 1, Date_now at 1 in H.
  apply bind_inv in H as [(w2 & existing & [Hex ->]%as_array_ok & H)|(e & _ & ?)]; [|done].
  exists existing, (payload_id saved), (stamp (clock w1)).
  rewrite !bind_setItem in H.
  repeat (destruct (accepts _ _ _) in H; [|discriminate]).
  apply bind_inv in H as [(w3 & [] & Hverify & H)|(e & _ & ?)]; [|done].
  injection H as <- <-.
  assert (preserves_storage
            (try_catch (verifyMongoDBSync accepts token base false;; ret tt)
                       (fun _ => ret tt))) as Hframe.
  { pose proof (preserves_verifyMongoDBSync accepts token base false). frame. }
  apply Hframe in Hverify. rewrite Hverify. simpl.
  unfold slot_payload in *. rewrite Hsave in Hex. split_and!; try done.
  by rewrite Hsave.
Qed.

Lemma lookup_written4 k1 k2 k3 k4 v s k :
  k = k1 \/ k = k2 \/ k = k3 \/ k = k4 ->
  written4 k1 k2 k3 k4 v v v v s !! k = Some v.
Proof.
  unfold written4. intros Hk.
  destruct (decide (k = k4)) as [->|]; [by rewrite lookup_insert_eq|].
  rewrite lookup_insert_ne by done.
  destruct (decide (k = k3)) as [->|]; [by rewrite lookup_insert_eq|].
  rewrite lookup_insert_ne by done.
  destruct (decide (k = k2)) as [->|]; [by rewrite lookup_insert_eq|].
  rewrite lookup_insert_ne by done.
  destruct (decide (k = k1)) as [->|]; [by rewrite lookup_insert_eq|].
  intuition congruence.
Qed.

Lemma fetchMongoDBCourses_try_ok accepts endpoint force w w' v :
  fetchMongoDBCourses_try accepts endpoint force w = (w', Ok v) ->
  localStorage w' =
  written4 "adminCourses" "edutube_courses" "courses_data" "user_courses"
    (Json v) (Json v) (Json v) (Json v) (localStorage w).
Proof.
  unfold fetchMongoDBCourses_try.
  intros [(w1 & target & Ht & H)|(e & _ & ?)]%bind_inv; [|done].
  assert (localStorage w1 = localStorage w) as H1.
  { revert Ht. apply preserves_if; frame. }
  apply bind_inv in H as [(w2 & resp & H2%preserves_fetch & H)|(e & _ & ?)]; [|done].
  destruct (negb (response_ok resp)); [done|].
  apply bind_inv in H as [(w3 & courses & H3%preserves_response_json & H)|(e & _ & ?)]; [|done].
  apply bind_inv in H as [(w4 & n & H4%preserves_js_length & H)|(e & _ & ?)]; [|done].
  rewrite !bind_setItem in H.
  repeat (destruct (accepts _ _ _) in H; [|discriminate]).
  injection H as <- <-. simpl. by rewrite H4, H3, H2, H1.
Qed.

(** ** Deleting *)

Lemma deleteFromMongoDB_throws_iff token base i w :
  (exists w1 e, deleteFromMongoDB token base i w = (w1, Throw e))
  <-> truthy token = false \/ remote_fails w = true.
Proof.
  unfold deleteFromMongoDB, require_token, remote_fails, bind, fetch, ret, throw.
  destruct token as [t|]; simpl; [|naive_solver].
  destruct (negb (t =? ""))%string; simpl; [|naive_solver].
  destruct (network w) as [|[|[s st tx b]] rest]; simpl; [naive_solver..|].
  destruct (negb (response_ok (Build_Reply s st tx b))); naive_solver.
Qed.

Lemma deleteFromMongoDB_ok token base i w w1 b :
  deleteFromMongoDB token base i w = (w1, Ok b) -> b = true.
Proof.
  unfold deleteFromMongoDB.
  intros [(w2 & t & _ & H)|(e & _ & ?)]%bind_inv; [|done].
  apply bind_inv in H as [(w3 & resp & _ & H)|(e & _ & ?)]; [|done].
  destruct (negb (response_ok resp)); [done|]. by injection H.
Qed.

Lemma with_identity_removeOne i cs : with_identity (Some i) (removeOne i cs) = [].
Proof.
  unfold with_identity, removeOne. induction cs as [|c cs IH]; [done|].
  destruct (decide (_id c = Some i)).
  - by rewrite filter_cons_False by naive_solver.
  - rewrite filter_cons_True by done. by rewrite filter_cons_False.
Qed.

Lemma write4_run accepts k1 k2 k3 k4 v w :
  exists w' r,
    (setItem accepts k1 v ;; setItem accepts k2 v ;;
     setItem accepts k3 v ;; setItem accepts k4 v) w = (w', r)
    /\ (accepts (localStorage w) k1 v = true -> k1 <> k2 -> k1 <> k3 -> k1 <> k4 ->
        localStorage w' !! k1 = Some v)
    /\ ((forall s k t, accepts s k t = true) ->
        r = Ok tt /\ localStorage w' = written4 k1 k2 k3 k4 v v v v (localStorage w)).
Proof.
  rewrite !bind_setItem. unfold setItem.
  destruct (accepts (localStorage w) k1 v) eqn:H1.
  2:{ eexists _, _. split; [done|]. split; [done|]. intros Hall. by rewrite Hall in H1. }
  set (w1 := set_storage _ w).
  destruct (accepts (localStorage w1) k2 v) eqn:H2.
  2:{ eexists _, _. split; [done|]. split.
      - intros. simpl. by rewrite lookup_insert_eq.
      - intros Hall. by rewrite Hall in H2. }
  set (w2 := set_storage _ w1).
  destruct (accepts (localStorage w2) k3 v) eqn:H3.
  2:{ eexists _, _. split; [done|]. split.
      - intros. simpl. rewrite lookup_insert_ne by done. by rewrite lookup_insert_eq.
      - intros Hall. by rewrite Hall in H3. }
  set (w3 := set_storage _ w2).
  destruct (accepts (localStorage w3) k4 v) eqn:H4.
  2:{ eexists _, _. split; [done|]. split.
      - intros. simpl. rewrite !lookup_insert_ne by done. by rewrite lookup_insert_eq.
      - intros Hall. by rewrite Hall in H4. }
  eexists _, _. split; [done|]. split; [|done].
  intros. simpl. rewrite !lookup_insert_ne by done. by rewrite lookup_insert_eq.
Qed.

(** Claim C1 (amended).  [deleteCourse] is remote-first: [removeOne] is
    applied to the Local Mirror only after the remote delete succeeded.
    When the remote delete fails, the failure reaches the caller and no
    slot of the Local Mirror changes.  When it succeeds, [deleteCourse]
    returns [true], and what happens to the mirror depends on the canonical
    slot alone.  If that slot holds an array and its write is accepted, it
    holds no record with the deleted id afterwards, and if the browser
    accepts every write all four slots hold that array without the id.  If
    that slot holds no array (it is missing, empty, unparseable or another
    JSON value), no slot changes, so a record with the id that another slot
    holds stays there. *)
Theorem deleteCourse_remote_first accepts token base i w :
  (forall w1 e, deleteFromMongoDB token base i w = (w1, Throw e) ->
      deleteCourse accepts token base i w = (w1, Throw e)
      /\ localStorage w1 = localStorage w)
  /\ (forall w1 b, deleteFromMongoDB token base i w = (w1, Ok b) ->
        exists w', deleteCourse accepts token base i w = (w', Ok true)
        /\ (forall cs,
              localStorage w !! STORAGE_KEY = Some (Json (PCourses cs)) ->
              accepts (localStorage w) STORAGE_KEY (Json (PCourses (removeOne i cs))) = true ->
              with_identity (Some i) (slot_courses w' STORAGE_KEY) = [])
        /\ (forall cs,
              localStorage w !! STORAGE_KEY = Some (Json (PCourses cs)) ->
              (forall s k v, accepts s k v = true) ->
              forall k, k ∈ slots ->
                localStorage w' !! k = Some (Json (PCourses (removeOne i cs))))
        /\ ((forall cs, localStorage w !! STORAGE_KEY <> Some (Json (PCourses cs))) ->
            localStorage w' = localStorage w)).
Proof.
  split.
  - intros w1 e Hdel. split; [|by eapply preserves_deleteFromMongoDB].
    unfold deleteCourse. by rewrite (bind_throw _ _ _ _ _ Hdel).
  - intros w1 b Hdel.
    pose proof (preserves_deleteFromMongoDB _ _ _ _ _ _ Hdel) as Hsame.
    unfold deleteCourse. rewrite (bind_ok _ _ _ _ _ Hdel).
    unfold bind at 1, bind at 1, getItem at 1. rewrite Hsame.
    destruct (localStorage w !! STORAGE_KEY) as [[p|s]|] eqn:Hslot; simpl.
    + destruct p as [|cs| |]; simpl;
        try (eexists; split; [reflexivity|]; split_and!;
             [intros; simplify_eq.. | intros _; exact Hsame]).
      unfold try_catch, bind at 1, ret at 1, bind at 1, ret at 1.
      change (as_array (PCourses cs) w1) with (w1, Ok cs). cbn beta iota.
      destruct (write4_run accepts STORAGE_KEY "adminCourses" "courses_data"
                  "user_courses" (JSON_stringify (PCourses (removeOne i cs))) w1)
        as (w4 & r4 & -> & Hfirst & Hall).
      exists w4. split; [by destruct r4|]. rewrite Hsame in Hfirst, Hall.
      split_and!; [intros cs' ?; simplify_eq.. |].
      * intros Hacc. unfold slot_courses, slot_payload.
        rewrite Hfirst by done. apply with_identity_removeOne.
      * intros Hyes k Hk%elem_of_slots. destruct (Hall Hyes) as [_ ->].
        apply lookup_written4. unfold STORAGE_KEY. tauto.
      * intros Hno. exfalso. by apply (Hno cs).
    + destruct (negb (s =? ""))%string; simpl;
        eexists; (split; [reflexivity|]);
        (split_and!; [intros; simplify_eq.. | intros _; exact Hsame]).
    + eexists; split; [reflexivity|].
      split_and!; [intros; simplify_eq.. | intros _; exact Hsame].
Qed.

Lemma deleteCourse_remote_first_witness :
  (exists w1 e,
      deleteCourse roomy tok api "x" (world (mirror_of [rec_x]) [server_error])
      = (w1, Throw e)
      /\ localStorage w1 = mirror_of [rec_x])
  /\ (exists w',
         deleteCourse roomy tok api "x" (world (mirror_of [rec_x; rec_1]) [removed])
         = (w', Ok true)
         /\ with_identity (Some "x") (slot_courses w' STORAGE_KEY) = []
         /\ forall k, k ∈ slots -> localStorage w' !! k = Some (Json (PCourses [rec_1])))
  /\ (exists w',
         deleteCourse roomy tok api "x" (world crowded [removed]) = (w', Ok true)
         /\ localStorage w' = crowded).
Proof.
  destruct (deleteCourse_remote_first roomy tok api "x"
              (world (mirror_of [rec_x]) [server_error])) as (Hfail & _).
  destruct (deleteCourse_remote_first roomy tok api "x"
              (world (mirror_of [rec_x; rec_1]) [removed])) as (_ & Hok).
  destruct (deleteCourse_remote_first roomy tok api "x"
              (world crowded [removed])) as (_ & Hmiss).
  split_and!.
  - eexists _, _. apply Hfail. vm_compute. reflexivity.
  - edestruct Hok as (w' & Hrun & Hone & Hall & _); [vm_compute; reflexivity|].
    exists w'. split; [exact Hrun|]. split.
    + apply (Hone [rec_x; rec_1]); [vm_compute; reflexivity|reflexivity].
    + intros k Hk.
      apply (Hall [rec_x; rec_1]); [vm_compute; reflexivity|reflexivity|exact Hk].
  - edestruct Hmiss as (w' & Hrun & _ & _ & Hkeep); [vm_compute; reflexivity|].
    exists w'. split; [exact Hrun|].
    apply Hkeep. intros cs. vm_compute. discriminate.
Defined.

(** Claim C1 as stated fails: with the record in the mirror and the remote
    store answering 404, [deleteCourse] raises an error, whose message is
    the status followed by the body of the answer, and the record stays in
    the mirror; and of two calls in a row, the first answered 200 and the
    second 404, the second raises. *)
Lemma deleteCourse_not_found_is_an_error :
  snd (deleteCourse roomy tok api "x" (world (mirror_of [rec_x]) [not_found]))
  = Throw (Error ("Failed to delete course: 404 " +:+ msg_text "Course not found"))
  /\ slot_courses
       (fst (deleteCourse roomy tok api "x" (world (mirror_of [rec_x]) [not_found])))
       STORAGE_KEY = [rec_x]
  /\ snd (deleteCourse roomy tok api "x"
            (fst (deleteCourse roomy tok api "x"
                    (world (mirror_of [rec_x]) [removed; not_found]))))
     = Throw (Error ("Failed to delete course: 404 " +:+ msg_text "Course not found")).
Proof. vm_compute. done. Qed.

(** ** Pulling *)

Lemma fetchMongoDBCourses_total accepts ep force w :
  exists w' p, fetchMongoDBCourses accepts ep force w = (w', Ok p).
Proof.
  unfold fetchMongoDBCourses, try_catch.
  destruct (fetchMongoDBCourses_try accepts ep force w) as [w' [p|e]]; eauto.
Qed.

Lemma fetchMongoDBCourses_remote_fails accepts ep force w :
  remote_fails w = true ->
  exists w', fetchMongoDBCourses accepts ep force w = (w', Ok (PCourses []))
             /\ localStorage w' = localStorage w.
Proof.
  unfold remote_fails, fetchMongoDBCourses, fetchMongoDBCourses_try, try_catch.
  intros Hfail.
  destruct force; unfold bind, Date_now, fetch, ret, throw; simpl;
    destruct (network w) as [|[|[s st tx b]] rest]; simpl; eauto;
    rewrite Hfail; simpl; eauto.
Qed.

Lemma fetchFromMongoDB_remote_fails token base w :
  remote_fails w = true ->
  exists w' e, fetchFromMongoDB token base w = (w', Throw e).
Proof.
  unfold remote_fails, fetchFromMongoDB. intros Hfail.
  unfold bind, fetch, throw; simpl.
  destruct (network w) as [|[|[s st tx b]] rest]; simpl; eauto.
  rewrite Hfail; simpl; eauto.
Qed.

Lemma getCourses_falls_back accepts token base w w1 :
  getCourses_refresh accepts token base w = (w1, Ok None) ->
  getCourses accepts token base true w = (w1, Ok (slot_payload w1 STORAGE_KEY)).
Proof.
  intros Hrefresh. unfold getCourses, try_catch.
  rewrite (bind_ok _ _ _ _ _ Hrefresh). by rewrite read_local_spec.
Qed.

(** Claim C2 (amended).  When the remote listing fails (the network rejects
    the request or the status is outside 200-299), no slot of the Local
    Mirror changes; [getCourses(true)] returns the previous local snapshot,
    read from the canonical slot, whereas [fetchMongoDBCourses], the fetch
    of the poller, returns an empty array. *)
Theorem pull_failure_keeps_mirror accepts token base ep force w :
  remote_fails w = true ->
  (exists w1, fetchMongoDBCourses accepts ep force w = (w1, Ok (PCourses []))
              /\ localStorage w1 = localStorage w)
  /\ (exists w2, getCourses accepts token base true w
                 = (w2, Ok (slot_payload w STORAGE_KEY))
                 /\ localStorage w2 = localStorage w).
Proof.
  intros Hfail. split; [by apply fetchMongoDBCourses_remote_fails|].
  destruct (fetchFromMongoDB_remote_fails token base w Hfail) as (w2 & e & Hfetch).
  pose proof (preserves_fetchFromMongoDB _ _ _ _ _ Hfetch) as Hsame.
  exists w2. split; [|done].
  rewrite (getCourses_falls_back _ _ _ _ w2).
  - unfold slot_payload. by rewrite Hsame.
  - unfold getCourses_refresh, try_catch. by rewrite (bind_throw _ _ _ _ _ Hfetch).
Qed.

Lemma pull_failure_keeps_mirror_witness :
  (exists w1, fetchMongoDBCourses roomy endpoint true
                (world (mirror_of [rec_x]) [server_error]) = (w1, Ok (PCourses []))
              /\ localStorage w1 = mirror_of [rec_x])
  /\ (exists w2, getCourses roomy tok api true
                   (world (mirror_of [rec_x]) [server_error])
                 = (w2, Ok (PCourses [rec_x]))
                 /\ localStorage w2 = mirror_of [rec_x]).
Proof.
  apply (pull_failure_keeps_mirror roomy tok api endpoint true
           (world (mirror_of [rec_x]) [server_error])).
  vm_compute. reflexivity.
Defined.

(** Claim C2 as stated fails: with a record in the mirror and the remote
    store answering 500, [fetchMongoDBCourses] returns the empty array, not
    the snapshot the mirror holds. *)
Lemma fetchMongoDBCourses_failure_returns_empty :
  snd (fetchMongoDBCourses roomy endpoint true (world (mirror_of [rec_x]) [server_error]))
  = Ok (PCourses [])
  /\ slot_payload (world (mirror_of [rec_x]) [server_error]) STORAGE_KEY = PCourses [rec_x]
  /\ PCourses [] <> PCourses [rec_x].
Proof. vm_compute. done. Qed.

Lemma getCourses_refresh_ok accepts token base w w' p :
  getCourses_refresh accepts token base w = (w', Ok (Some p)) ->
  localStorage w' =
  written4 STORAGE_KEY "adminCourses" "courses_data" "user_courses"
    (Json p) (Json p) (Json p) (Json p) (localStorage w).
Proof.
  intros [(a & Hrun & [= <-])|(w1 & e & _ & ?)]%try_catch_inv; [|done].
  apply bind_inv in Hrun as [(w1 & q & Hsame%preserves_fetchFromMongoDB & H)|(e & _ & ?)];
    [|done].
  destruct (nonempty_listing q); [|done].
  rewrite !bind_setItem in H.
  repeat (destruct (accepts _ _ _) in H; [|discriminate]).
  injection H as <- <-. simpl. by rewrite Hsame.
Qed.

(** Claim C3 (amended).  The four slots are written one after another.
    When every write is accepted, all four slots hold identical contents:
    after [fetchMongoDBCourses] ran its [try] block to the end (in
    particular whenever it returns a listing other than the empty array),
    after [saveCourse] returned, after the refresh block of [getCourses]
    returned a listing, and after a completed [syncLocalStorage] on a
    mirror whose two source slots agreed. *)
Theorem completed_pass_fills_every_slot accepts token base ep stamp :
  (forall force w w' v,
      fetchMongoDBCourses_try accepts ep force w = (w', Ok v) ->
      forall k, k ∈ slots -> localStorage w' !! k = Some (Json v))
  /\ (forall force w w' v,
        fetchMongoDBCourses accepts ep force w = (w', Ok v) ->
        v <> PCourses [] ->
        forall k, k ∈ slots -> localStorage w' !! k = Some (Json v))
  /\ (forall c w w' c',
        saveCourse accepts token base stamp c w = (w', Ok c') ->
        exists v, forall k, k ∈ slots -> localStorage w' !! k = Some v)
  /\ (forall w w' p,
        getCourses_refresh accepts token base w = (w', Ok (Some p)) ->
        forall k, k ∈ slots -> localStorage w' !! k = Some (Json p))
  /\ (forall c w w',
        syncLocalStorage accepts c w = (w', Ok tt) ->
        slot_payload w "adminCourses" = slot_payload w "edutube_courses" ->
        exists v, forall k, k ∈ slots -> localStorage w' !! k = Some v).
Proof.
  assert (forall force w w' v,
      fetchMongoDBCourses_try accepts ep force w = (w', Ok v) ->
      forall k, k ∈ slots -> localStorage w' !! k = Some (Json v)) as Htry.
  { intros force w w' v ->%fetchMongoDBCourses_try_ok k Hk%elem_of_slots.
    by apply lookup_written4. }
  split_and!; [exact Htry| | | |].
  - intros force w w' v Hrun Hne.
    apply try_catch_inv in Hrun as [(a & Hrun & [= <-])|(w1 & e & _ & Hret)].
    + by eapply Htry.
    + by injection Hret as _ <-.
  - intros c w w' c' (existing & i & t & _ & _ & _ & ->)%saveCourse_ok.
    eexists. intros k Hk%elem_of_slots. apply lookup_written4.
    unfold STORAGE_KEY. tauto.
  - intros w w' p ->%getCourses_refresh_ok k Hk%elem_of_slots.
    apply lookup_written4. unfold STORAGE_KEY. tauto.
  - intros c w w' (admin & edutube & Ha & He & ->)%syncLocalStorage_ok Hsame.
    rewrite Ha, He in Hsame. injection Hsame as <-.
    eexists. intros k Hk%elem_of_slots. by apply lookup_written4.
Qed.

Lemma completed_pass_fills_every_slot_witness :
  (forall k, k ∈ slots ->
     localStorage
       (fst (fetchMongoDBCourses_try roomy endpoint true
               (world crowded [listing [rec_1; rec_2]]))) !! k
     = Some (Json (PCourses [rec_1; rec_2])))
  /\ (exists v, forall k, k ∈ slots ->
        localStorage
          (fst (saveCourse roomy tok api iso new_course (world crowded [created]))) !! k
        = Some v).
Proof.
  destruct (completed_pass_fills_every_slot roomy tok api endpoint iso) as (H1 & _ & H3 & _).
  split.
  - apply (H1 true (world crowded [listing [rec_1; rec_2]])).
    vm_compute. reflexivity.
  - eapply (H3 new_course (world crowded [created])).
    vm_compute. reflexivity.
Defined.

(** Claim C3 as stated fails: in a browser whose quota is three records
    and whose first slot holds two, a pass that fetches two records
    replaces the first slot, is refused at the second, and reports failure
    (the empty array); the slots then differ. *)
Lemma refused_write_leaves_slots_apart :
  snd (fetchMongoDBCourses (quota_policy 3) endpoint true
         (world crowded [listing [rec_1; rec_2]])) = Ok (PCourses [])
  /\ localStorage (fst (fetchMongoDBCourses (quota_policy 3) endpoint true
                          (world crowded [listing [rec_1; rec_2]]))) !! "adminCourses"
     = Some (Json (PCourses [rec_1; rec_2]))
  /\ localStorage (fst (fetchMongoDBCourses (quota_policy 3) endpoint true
                          (world crowded [listing [rec_1; rec_2]]))) !! "edutube_courses"
     = None
  /\ crowded !! "adminCourses" = Some (Json (PCourses [rec_x; rec_1])).
Proof. vm_compute. done. Qed.

(** ** Polling *)

Lemma run_ticks s h n :
  is_Some (Poller.timers s !! h) ->
  Poller.in_flight (Poller.run s (replicate n (Poller.Tick h))) = Poller.in_flight s + n
  /\ Poller.started (Poller.run s (replicate n (Poller.Tick h))) = Poller.started s + n.
Proof.
  revert s. induction n as [|n IH]; intros s Hlive; simpl.
  - by rewrite !Nat.add_0_r.
  - destruct Hlive as [ms Hlive]. unfold Poller.run in *. rewrite Hlive.
    destruct (IH (Poller.begin_fetch s)) as [-> ->]; [by eexists|].
    simpl. lia.
Qed.

(** Claim C4 (amended).  The poller has no overlap guard: every tick of the
    live interval begins a new [fetchMongoDBCourses(true)] whether or not
    an earlier one is still pending.  After [startAutoRefresh] and [n]
    ticks with no fetch settled in between, the fetches in flight are the
    earlier ones, the initial fetch and one per tick; no tick is skipped
    or queued. *)
Theorem every_tick_begins_a_fetch (intervalMs : N) (s : Poller.State) (n : nat) :
  Poller.refreshInterval (Poller.startAutoRefresh intervalMs s) = Some (Poller.next_handle s)
  /\ Poller.in_flight
       (Poller.run (Poller.startAutoRefresh intervalMs s)
          (replicate n (Poller.Tick (Poller.next_handle s))))
     = Poller.in_flight s + 1 + n
  /\ Poller.started
       (Poller.run (Poller.startAutoRefresh intervalMs s)
          (replicate n (Poller.Tick (Poller.next_handle s))))
     = Poller.started s + 1 + n.
Proof.
  assert (Poller.next_handle
            (match Poller.refreshInterval s with
             | Some h => Poller.clearInterval h s | None => s end)
          = Poller.next_handle s) as Hnext by (by destruct (Poller.refreshInterval s)).
  split.
  { unfold Poller.startAutoRefresh, Poller.setInterval. simpl. by rewrite Hnext. }
  destruct (run_ticks (Poller.startAutoRefresh intervalMs s) (Poller.next_handle s) n)
    as [-> ->].
  - unfold Poller.startAutoRefresh, Poller.setInterval. simpl.
    rewrite Hnext. rewrite lookup_insert_eq. by eexists.
  - unfold Poller.startAutoRefresh. simpl.
    destruct (Poller.refreshInterval s); simpl; lia.
Qed.

(** Claim C4 as stated fails: started with a period of one second, the
    poller has two fetches in flight after the first tick when the initial
    fetch has not settled, and three after the second. *)
Lemma ticks_overlap :
  Poller.in_flight_trace (Poller.startAutoRefresh 1000 Poller.initial)
    [Poller.Tick 1; Poller.Tick 1; Poller.Settle; Poller.Tick 1]
  = [1; 2; 3; 2; 3].
Proof. vm_compute. reflexivity. Qed.

(** ** Upserting into the mirror *)

Lemma lookup_written4_1 k1 k2 k3 k4 v1 v2 v3 v4 s :
  k1 <> k2 -> k1 <> k3 -> k1 <> k4 ->
  written4 k1 k2 k3 k4 v1 v2 v3 v4 s !! k1 = Some v1.
Proof. intros. unfold written4. rewrite !lookup_insert_ne by done. apply lookup_insert_eq. Qed.

Lemma lookup_written4_2 k1 k2 k3 k4 v1 v2 v3 v4 s :
  k2 <> k3 -> k2 <> k4 ->
  written4 k1 k2 k3 k4 v1 v2 v3 v4 s !! k2 = Some v2.
Proof. intros. unfold written4. rewrite !lookup_insert_ne by done. apply lookup_insert_eq. Qed.

Lemma lookup_written4_3 k1 k2 k3 k4 v1 v2 v3 v4 s :
  k3 <> k4 ->
  written4 k1 k2 k3 k4 v1 v2 v3 v4 s !! k3 = Some v3.
Proof. intros. unfold written4. rewrite !lookup_insert_ne by done. apply lookup_insert_eq. Qed.

Lemma lookup_written4_4 k1 k2 k3 k4 v1 v2 v3 v4 s :
  written4 k1 k2 k3 k4 v1 v2 v3 v4 s !! k4 = Some v4.
Proof. unfold written4. apply lookup_insert_eq. Qed.

Lemma syncLocalStorage_slots accepts c w w' :
  syncLocalStorage accepts c w = (w', Ok tt) ->
  slot_courses w' "adminCourses" = upsertOne c (slot_courses w "adminCourses")
  /\ slot_courses w' "edutube_courses" = upsertOne c (slot_courses w "edutube_courses")
  /\ slot_courses w' "courses_data" = upsertOne c (slot_courses w "adminCourses")
  /\ slot_courses w' "user_courses" = upsertOne c (slot_courses w "adminCourses").
Proof.
  intros (admin & edutube & Ha & He & Hw')%syncLocalStorage_ok.
  rewrite (slot_payload_courses _ _ _ Ha), (slot_payload_courses _ _ _ He).
  unfold slot_courses, slot_payload. rewrite Hw'.
  rewrite lookup_written4_1, lookup_written4_2, lookup_written4_3, lookup_written4_4 by done.
  done.
Qed.

Lemma twice_upsertOne r1 r2 i cs :
  _id r1 = i -> _id r2 = i -> length (with_identity i cs) <= 1 ->
  with_identity i (upsertOne r2 (upsertOne r1 cs)) = [r2].
Proof.
  intros <- H2 Hlen. rewrite <- H2, with_identity_upsertOne. rewrite H2.
  rewrite with_identity_upsertOne.
  destruct (with_identity (_id r1) cs) as [|y [|z ys]]; simpl in *; [done..|lia].
Qed.

Lemma twice_upsertAll r1 r2 i cs :
  _id r1 = i -> _id r2 = i -> length (with_identity i cs) <= 1 ->
  with_identity i (upsertAll r2 (upsertAll r1 cs)) = [r2].
Proof.
  intros <- H2 Hlen. rewrite <- H2, with_identity_upsertAll. rewrite H2.
  rewrite with_identity_upsertAll.
  destruct (with_identity (_id r1) cs) as [|y [|z ys]]; simpl in *; [done..|lia].
Qed.

(** Claim C5.  Upserting matches by [_id] alone.  [upsertOne] (the
    [findIndex] of [syncLocalStorage]) replaces, in place, the first record
    whose identity equals that of the new record and appends the record
    when no identity matches; [upsertAll] (the [some]/[map] of
    [saveCourse]) likewise replaces in place or appends.  A completed
    [syncLocalStorage] leaves each slot with the upserted array.  Two
    upserts in a row of records with id ["x"], into a mirror holding at
    most one record with that id, leave exactly one record with id ["x"]
    in every slot: the second one. *)
Theorem upsert_matches_by_identity :
  (forall c cs,
      (exists i old, cs !! i = Some old /\ _id old = _id c
         /\ (forall j y, j < i -> cs !! j = Some y -> _id y <> _id c)
         /\ upsertOne c cs = <[i := c]> cs)
      \/ (Forall (fun y => _id y <> _id c) cs /\ upsertOne c cs = cs ++ [c]))
  /\ (forall c cs,
        (Exists (fun y => _id y = _id c) cs
           /\ upsertAll c cs = map (fun y => if bool_decide (_id y = _id c) then c else y) cs)
        \/ (Forall (fun y => _id y <> _id c) cs /\ upsertAll c cs = cs ++ [c]))
  /\ (forall accepts c w w',
        syncLocalStorage accepts c w = (w', Ok tt) ->
        slot_courses w' "adminCourses" = upsertOne c (slot_courses w "adminCourses")
        /\ slot_courses w' "edutube_courses" = upsertOne c (slot_courses w "edutube_courses")
        /\ slot_courses w' "courses_data" = upsertOne c (slot_courses w "adminCourses")
        /\ slot_courses w' "user_courses" = upsertOne c (slot_courses w "adminCourses"))
  /\ (forall accepts r1 r2 w0 w1 w2,
        _id r1 = Some "x" -> _id r2 = Some "x" ->
        length (with_identity (Some "x") (slot_courses w0 "adminCourses")) <= 1 ->
        length (with_identity (Some "x") (slot_courses w0 "edutube_courses")) <= 1 ->
        syncLocalStorage accepts r1 w0 = (w1, Ok tt) ->
        syncLocalStorage accepts r2 w1 = (w2, Ok tt) ->
        forall k, k ∈ slots -> with_identity (Some "x") (slot_courses w2 k) = [r2])
  /\ (forall r1 r2 cs,
        _id r1 = Some "x" -> _id r2 = Some "x" ->
        length (with_identity (Some "x") cs) <= 1 ->
        with_identity (Some "x") (upsertAll r2 (upsertAll r1 cs)) = [r2]).
Proof.
  split_and!.
  - apply upsertOne_cases.
  - apply upsertAll_cases.
  - apply syncLocalStorage_slots.
  - intros accepts r1 r2 w0 w1 w2 H1 H2 Ha He Hs1 Hs2 k Hk%elem_of_slots.
    apply syncLocalStorage_slots in Hs1 as (Ha1 & He1 & _ & _).
    apply syncLocalStorage_slots in Hs2 as (Ha2 & He2 & Hd2 & Hu2).
    destruct Hk as [-> | [-> | [-> | ->]]].
    + rewrite Ha2, Ha1. by apply twice_upsertOne.
    + rewrite He2, He1. by apply twice_upsertOne.
    + rewrite Hd2, Ha1. by apply twice_upsertOne.
    + rewrite Hu2, Ha1. by apply twice_upsertOne.
  - intros. by apply twice_upsertAll.
Qed.

Lemma upsert_matches_by_identity_witness :
  (forall k, k ∈ slots ->
     with_identity (Some "x")
       (slot_courses
          (fst (syncLocalStorage roomy rec_T2
                  (fst (syncLocalStorage roomy rec_T1 (world (mirror_of [rec_1]) []))))) k)
     = [rec_T2])
  /\ title rec_T2 = "T2"
  /\ with_identity (Some "x") (upsertAll rec_T2 (upsertAll rec_T1 [rec_1; rec_x])) = [rec_T2].
Proof.
  destruct upsert_matches_by_identity as (_ & _ & _ & Hsync & Hsave).
  split_and!.
  - apply (Hsync roomy rec_T1 rec_T2 (world (mirror_of [rec_1]) [])
             (fst (syncLocalStorage roomy rec_T1 (world (mirror_of [rec_1]) []))));
      first [reflexivity | vm_compute; reflexivity | vm_compute; lia].
  - reflexivity.
  - apply Hsave; first [reflexivity | vm_compute; lia].
Defined.

(** ** Categories *)

Lemma elem_of_upsertAll c cs : c ∈ upsertAll c cs.
Proof.
  destruct (upsertAll_cases c cs) as [[Hex ->]|[_ ->]].
  - apply Exists_exists in Hex as (y & Hy & Hid).
    apply list_elem_of_fmap. exists y. by rewrite bool_decide_eq_true_2.
  - apply elem_of_app. right. apply elem_of_cons. by left.
Qed.

Lemma saveToMongoDB_body t base c w flat :
  t <> "" ->
  payload_category (category c) w = (w, Ok flat) ->
  exists req r,
    saveToMongoDB (Some t) base c w = (fetched req w, r)
    /\ sent (fetched req w) = sent w ++ [req]
    /\ body req = Some (JSON_stringify (PCourse (with_category c flat))).
Proof.
  intros Hne Hflat. unfold saveToMongoDB, require_token.
  assert (truthy (Some t) = true) as ->.
  { simpl. apply negb_true_iff. by apply String.eqb_neq. }
  unfold bind at 1, ret at 1. unfold bind at 1. rewrite Hflat.
  set (req := {| url := _ |}).
  exists req. unfold fetched, bind at 1, fetch.
  destruct (network w) as [|[|[s st tx b]] rest]; simpl; [by eexists..|].
  destruct (negb (response_ok (Build_Reply s st tx b))); [by eexists|].
  unfold bind, response_json. simpl.
  destruct b as [[| | |]|]; simpl; by eexists.
Qed.

(** Claim C6 (amended).  The write path never turns a category into the
    embedded pair.  With a credential, [saveToMongoDB] sends as the
    category of the request body a plain string for a category object: its
    [_id] when that is a non-empty string, else its [name] when that is a
    non-empty string, else ["web-development"]; and it sends a bare id
    string unchanged.  The schema setter and getter leave a bare id string
    as it is, and the setter reduces an embedded pair to its bare id: its
    [_id] when that is a non-empty string, else its [id].  For a bare id,
    the category processing of [POST /api/courses] followed by the setter
    stores a bare id: the [_id] of the category document the lookup finds,
    else the string supplied.  And the record [saveCourse] writes to every
    slot of the Local Mirror keeps the category exactly as the caller
    supplied it. *)
Theorem category_is_stored_as_supplied_or_bare :
  (forall o i w, Category._id o = Some i -> i <> "" ->
      payload_category (CatObj o) w = (w, Ok (CatStr i)))
  /\ (forall o n w, truthy (Category._id o) = false ->
        Category.name o = Some n -> n <> "" ->
        payload_category (CatObj o) w = (w, Ok (CatStr n)))
  /\ (forall o w, truthy (Category._id o) = false -> truthy (Category.name o) = false ->
        payload_category (CatObj o) w = (w, Ok (CatStr "web-development")))
  /\ (forall s w, payload_category (CatStr s) w = (w, Ok (CatStr s)))
  /\ (forall t base c w flat, t <> "" ->
        payload_category (category c) w = (w, Ok flat) ->
        exists req r,
          saveToMongoDB (Some t) base c w = (fetched req w, r)
          /\ sent (fetched req w) = sent w ++ [req]
          /\ body req = Some (JSON_stringify (PCourse (with_category c flat))))
  /\ (forall s, CourseSchema_category_set (CatStr s) = CatStr s
                /\ CourseSchema_category_get (CatStr s) = CatStr s)
  /\ (forall o, embedded_pair (CatObj o) = true ->
        exists i, CourseSchema_category_set (CatObj o) = CatStr i
                  /\ i <> ""
                  /\ (Category._id o = Some i
                      \/ (truthy (Category._id o) = false /\ Category.id o = Some i)))
  /\ (forall findById s,
        CourseSchema_category_set (categoryToSave findById (CatStr s))
        = CatStr (match findById s with Ok (Some oid) => oid | _ => s end))
  /\ (forall accepts token base stamp c w w' c',
        saveCourse accepts token base stamp c w = (w', Ok c') ->
        category c' = category c
        /\ forall k, k ∈ slots -> c' ∈ slot_courses w' k).
Proof.
  split_and!.
  - intros o i w Hi Hne%String.eqb_neq.
    unfold payload_category, js_or, truthy. rewrite Hi, Hne. simpl. by rewrite Hne.
  - intros o n w Hid Hn Hne%String.eqb_neq.
    unfold payload_category, js_or. rewrite Hid, Hn. simpl. by rewrite Hne.
  - intros o w Hid Hn. unfold payload_category, js_or. by rewrite Hid, Hn.
  - done.
  - apply saveToMongoDB_body.
  - done.
  - intros o. unfold embedded_pair, CourseSchema_category_set, truthy.
    destruct (Category._id o) as [a|], (Category.id o) as [b|]; simpl;
      repeat (match goal with
              | |- context [negb (?x =? "")%string] =>
                  destruct (String.eqb_spec x ""); simpl
              end);
      try done; intros _; eexists; (split; [reflexivity|]); split; try done; eauto.
  - intros findById s. simpl. by destruct (findById s) as [[oid|]|e].
  - intros accepts token base stamp c w w' c'
      (existing & i & t & _ & _ & -> & Hw')%saveCourse_ok.
    split; [done|]. intros k Hk%elem_of_slots.
    unfold slot_courses, slot_payload. rewrite Hw'.
    rewrite (lookup_written4 STORAGE_KEY "adminCourses" "courses_data" "user_courses")
      by (unfold STORAGE_KEY; tauto).
    apply elem_of_upsertAll.
Qed.

Lemma category_is_stored_as_supplied_or_bare_witness :
  payload_category web (world ∅ []) = (world ∅ [], Ok (CatStr "c1"))
  /\ payload_category
       (CatObj {| Category._id := None; Category.id := None; Category.name := Some "Web" |})
       (world ∅ [])
     = (world ∅ [], Ok (CatStr "Web"))
  /\ payload_category
       (CatObj {| Category._id := None; Category.id := None; Category.name := None |})
       (world ∅ [])
     = (world ∅ [], Ok (CatStr "web-development"))
  /\ (exists req r,
        saveToMongoDB tok api (course (Some "7") "Seven" web) (world ∅ [created])
        = (fetched req (world ∅ [created]), r)
        /\ sent (fetched req (world ∅ [created])) = sent (world ∅ [created]) ++ [req]
        /\ body req
           = Some (JSON_stringify
                     (PCourse (with_category (course (Some "7") "Seven" web) (CatStr "c1")))))
  /\ (exists i, CourseSchema_category_set web = CatStr i /\ i = "c1")
  /\ (exists c', snd (saveCourse roomy tok api iso new_course (world ∅ [created])) = Ok c'
                 /\ category c' = CatStr "c1"
                 /\ forall k, k ∈ slots ->
                      c' ∈ slot_courses
                             (fst (saveCourse roomy tok api iso new_course (world ∅ [created]))) k).
Proof.
  destruct category_is_stored_as_supplied_or_bare
    as (Hid & Hname & Hdefault & _ & Hsend & _ & Hset & _ & Hsave).
  split_and!.
  - unfold web. apply Hid; [reflexivity|discriminate].
  - apply Hname; [reflexivity|reflexivity|discriminate].
  - apply Hdefault; reflexivity.
  - apply (Hsend "tok" api (course (Some "7") "Seven" web) (world ∅ [created]) (CatStr "c1"));
      [discriminate|reflexivity].
  - destruct (Hset {| Category._id := Some "c1"; Category.id := None;
                      Category.name := Some "Web" |})
      as (i & Hrun & _ & [Hi|[Hno _]]); [reflexivity| |discriminate].
    exists i. split; [exact Hrun|]. simpl in Hi. by injection Hi.
  - destruct (saveCourse roomy tok api iso new_course (world ∅ [created]))
      as [w' [c'|e]] eqn:Hrun; [|vm_compute in Hrun; discriminate].
    exists c'. split; [reflexivity|].
    destruct (Hsave _ _ _ _ _ _ _ _ Hrun) as [Hcat Hin]. split; [|exact Hin].
    rewrite Hcat. reflexivity.
Defined.

(** Claim C6 as stated fails: a course saved with the bare category id
    ["c1"] sits in the Local Mirror with that bare id, not with an embedded
    pair; and the schema setter turns the embedded pair [{_id, name}] into
    the bare id. *)
Lemma bare_category_is_stored :
  map category
    (slot_courses (fst (saveCourse roomy tok api iso new_course (world ∅ [created])))
       STORAGE_KEY)
  = [CatStr "c1"]
  /\ embedded_pair (CatStr "c1") = false
  /\ embedded_pair web = true
  /\ CourseSchema_category_set web = CatStr "c1".
Proof. vm_compute. done. Qed.

(** ** Cache directives *)

Lemma fetchMongoDBCourses_request_defeats_caches accepts ep force w :
  exists req,
    sent (fst (fetchMongoDBCourses accepts ep force w)) = sent w ++ [req]
    /\ defeats_caches req = true.
Proof.
  unfold fetchMongoDBCourses, try_catch.
  destruct (fetchMongoDBCourses_try accepts ep force w) as [w' r] eqn:Hrun.
  assert (exists req, sent w' = sent w ++ [req] /\ defeats_caches req = true) as Hsent.
  { revert Hrun. unfold fetchMongoDBCourses_try.
    destruct force; unfold bind at 1; simpl.
    all: unfold bind at 1, fetch at 1.
    all: destruct (network w) as [|[|[s st tx b]] rest]; simpl;
      try (intros [= <- _]; simpl; eauto).
    all: destruct (negb (response_ok (Build_Reply s st tx b))); simpl;
      try (intros [= <- _]; simpl; eauto).
    all: unfold bind at 1, response_json; simpl.
    all: destruct b as [p|]; simpl; try (intros [= <- _]; simpl; eauto).
    all: unfold bind at 1; destruct p; simpl; try (intros [= <- _]; simpl; eauto).
    all: rewrite !bind_setItem; unfold setItem, ret; simpl.
    all: repeat (destruct (accepts _ _ _); simpl);
      intros [= <- _]; simpl; eauto. }
  destruct r; simpl; done.
Qed.

(** Claim C7, at the request [fetchFromMongoDB] issues.  The listing
    request of [fetchFromMongoDB], which is the fetch behind
    [getCourses(true)], carries [Content-Type] and, with a credential,
    [Authorization]: it has no [Cache-Control] header at all, unlike the
    request of [fetchMongoDBCourses]. *)
Theorem fetchFromMongoDB_request_lacks_cache_directives token base w :
  exists req,
    sent (fst (fetchFromMongoDB token base w)) = sent w ++ [req]
    /\ method req = "GET"
    /\ has_header "Cache-Control" req = false
    /\ defeats_caches req = false.
Proof.
  unfold fetchFromMongoDB, bind at 1, fetch at 1.
  destruct token as [t|]; simpl.
  - destruct (negb (t =? ""))%string; simpl;
      destruct (network w) as [|[|[s st tx b]] rest]; simpl; eauto;
      destruct (negb (response_ok (Build_Reply s st tx b))); simpl; eauto;
      unfold bind, response_json; destruct b as [[]|]; simpl; eauto.
  - destruct (network w) as [|[|[s st tx b]] rest]; simpl; eauto;
      destruct (negb (response_ok (Build_Reply s st tx b))); simpl; eauto;
      unfold bind, response_json; destruct b as [[]|]; simpl; eauto.
Qed.

Lemma getCourses_refresh_request_lacks_cache_directives :
  map defeats_caches
    (sent (fst (getCourses roomy tok api true (world (mirror_of [rec_x]) [listing [rec_1]]))))
  = [false]
  /\ map defeats_caches
       (sent (fst (fetchMongoDBCourses roomy endpoint true
                     (world (mirror_of [rec_x]) [listing [rec_1]]))))
     = [true].
Proof. vm_compute. done. Qed.

(** ** An empty listing *)

Lemma fetchFromMongoDB_empty_listing token base w r rest :
  network w = Http r :: rest ->
  json r = Some (PCourses []) ->
  response_ok r = true ->
  exists w1, fetchFromMongoDB token base w = (w1, Ok (PCourses []))
             /\ localStorage w1 = localStorage w.
Proof.
  intros Hnet Hjson Hok. unfold fetchFromMongoDB, bind at 1, fetch at 1.
  rewrite Hnet, Hok. simpl. unfold bind at 1, response_json. rewrite Hjson.
  simpl. eauto.
Qed.

(** Claim C8.  When [getCourses(true)] receives a successful but empty
    listing, no slot of the Local Mirror changes and the call returns what
    the canonical slot held before: the empty remote state is never
    written, so records deleted remotely down to the last one stay in the
    mirror on this path. *)
Theorem getCourses_ignores_empty_listing accepts token base w r rest :
  network w = Http r :: rest ->
  json r = Some (PCourses []) ->
  response_ok r = true ->
  exists w',
    getCourses accepts token base true w = (w', Ok (slot_payload w STORAGE_KEY))
    /\ localStorage w' = localStorage w
    /\ forall k, slot_courses w' k = slot_courses w k.
Proof.
  intros Hnet Hjson Hok.
  destruct (fetchFromMongoDB_empty_listing token base w r rest Hnet Hjson Hok)
    as (w1 & Hfetch & Hsame).
  exists w1. split_and!; [|done|].
  - rewrite (getCourses_falls_back _ _ _ _ w1).
    + unfold slot_payload. by rewrite Hsame.
    + unfold getCourses_refresh, try_catch. by rewrite (bind_ok _ _ _ _ _ Hfetch).
  - intros k. unfold slot_courses, slot_payload. by rewrite Hsame.
Qed.

Lemma getCourses_ignores_empty_listing_witness :
  exists w',
    getCourses roomy tok api true (world (mirror_of [rec_x]) [listing []])
    = (w', Ok (PCourses [rec_x]))
    /\ localStorage w' = mirror_of [rec_x]
    /\ forall k, slot_courses w' k
                 = slot_courses (world (mirror_of [rec_x]) [listing []]) k.
Proof.
  eapply (getCourses_ignores_empty_listing roomy tok api
            (world (mirror_of [rec_x]) [listing []])); reflexivity.
Defined.

(** ** Forcing a synchronisation *)

Lemma forceSync_run accepts ep w :
  exists w' p,
    fetchMongoDBCourses accepts ep true w = (w', Ok p)
    /\ forceSync accepts ep w
       = (w', Ok (match nonempty_listing p with Some n => Z.of_nat n | None => 0%Z end)).
Proof.
  destruct (fetchMongoDBCourses_total accepts ep true w) as (w' & p & Hrun).
  exists w', p. split; [done|].
  unfold forceSync, try_catch. rewrite (bind_ok _ _ _ _ _ Hrun).
  by destruct (nonempty_listing p).
Qed.

Lemma fetchMongoDBCourses_empty_listing accepts ep force w r rest :
  network w = Http r :: rest ->
  json r = Some (PCourses []) ->
  exists w', fetchMongoDBCourses accepts ep force w = (w', Ok (PCourses [])).
Proof.
  intros Hnet Hjson. unfold fetchMongoDBCourses, try_catch.
  destruct (fetchMongoDBCourses_try accepts ep force w) as [w' [p|e]] eqn:Hrun; [|by eexists].
  exists w'. revert Hrun. unfold fetchMongoDBCourses_try.
  intros [(w1 & target & Ht & H)|(e & _ & ?)]%bind_inv; [|done].
  assert (network w1 = network w) as Hn.
  { destruct force; [|by injection Ht as <- _].
    unfold bind, Date_now, ret in Ht. by injection Ht as <- _. }
  apply bind_inv in H as [(w2 & resp & Hf & H)|(e & _ & ?)]; [|done].
  unfold fetch in Hf. rewrite Hn, Hnet in Hf. injection Hf as _ <-.
  destruct (negb (response_ok _)); [done|].
  apply bind_inv in H as [(w3 & courses & Hj & H)|(e & _ & ?)]; [|done].
  unfold response_json in Hj. rewrite Hjson in Hj. injection Hj as _ <-.
  apply bind_inv in H as [(w4 & n & _ & H)|(e & _ & ?)]; [|done].
  rewrite !bind_setItem in H.
  repeat (destruct (accepts _ _ _) in H; [|discriminate]).
  by injection H as _ <-.
Qed.

(** Claim C9.  [fetchMongoDBCourses] turns every failure into the empty
    array and never raises, so [forceSync] never takes its [catch] branch:
    it always returns a non-negative count, never the sentinel [-1]; it
    returns [0] whenever the remote call fails, exactly as it does for a
    remote catalogue that is really empty. *)
Theorem forceSync_never_reports_failure accepts ep w :
  (exists w' p, fetchMongoDBCourses accepts ep true w = (w', Ok p))
  /\ (exists w' n, forceSync accepts ep w = (w', Ok n) /\ (0 <= n)%Z /\ n <> (-1)%Z)
  /\ (remote_fails w = true -> exists w', forceSync accepts ep w = (w', Ok 0%Z))
  /\ (forall r rest, network w = Http r :: rest -> json r = Some (PCourses []) ->
        exists w', forceSync accepts ep w = (w', Ok 0%Z)).
Proof.
  destruct (forceSync_run accepts ep w) as (w' & p & Hfetch & Hforce).
  split_and!.
  - eauto.
  - eexists _, _. split; [exact Hforce|].
    destruct (nonempty_listing p); lia.
  - intros Hfail.
    destruct (fetchMongoDBCourses_remote_fails accepts ep true w Hfail) as (w1 & Hrun & _).
    rewrite Hrun in Hfetch. injection Hfetch as <- <-. by exists w1.
  - intros r rest Hnet Hjson.
    destruct (fetchMongoDBCourses_empty_listing accepts ep true w r rest Hnet Hjson)
      as (w1 & Hrun).
    rewrite Hrun in Hfetch. injection Hfetch as <- <-. by exists w1.
Qed.

Lemma forceSync_never_reports_failure_witness :
  (exists w', forceSync roomy endpoint (world (mirror_of [rec_x]) [server_error])
              = (w', Ok 0%Z))
  /\ (exists w', forceSync roomy endpoint (world (mirror_of [rec_x]) [listing []])
                 = (w', Ok 0%Z)).
Proof.
  split.
  - apply (forceSync_never_reports_failure roomy endpoint
             (world (mirror_of [rec_x]) [server_error])).
    reflexivity.
  - eapply (forceSync_never_reports_failure roomy endpoint
              (world (mirror_of [rec_x]) [listing []])); reflexivity.
Defined.

(** ** Records without an identity *)

Lemma pending_upsertOne c cs :
  _id c = None -> pending (upsertOne c cs) = c :: tail (pending cs).
Proof. intros Hc. unfold pending. rewrite <- Hc. apply with_identity_upsertOne. Qed.

Lemma pending_upsertOne_at_most_one c cs :
  length (pending cs) <= 1 -> length (pending (upsertOne c cs)) <= 1.
Proof.
  intros Hlen. destruct (decide (_id c = None)) as [Hc|Hc].
  - rewrite pending_upsertOne by done.
    destruct (pending cs) as [|y [|z ys]]; simpl in *; lia.
  - unfold pending. by rewrite with_identity_upsertOne_ne.
Qed.

Lemma pending_foldl_upsertOne cs acc :
  length (pending acc) <= 1 ->
  length (pending (foldl (fun acc c => upsertOne c acc) acc cs)) <= 1.
Proof.
  revert acc. induction cs as [|c cs IH]; intros acc Hacc; simpl; [done|].
  apply IH. by apply pending_upsertOne_at_most_one.
Qed.

Lemma pending_nonempty_Exists c cs :
  _id c = None -> pending cs <> [] -> Exists (fun y => _id y = _id c) cs.
Proof.
  intros Hc Hne. destruct (pending cs) as [|y ys] eqn:Hp; [done|].
  assert (y ∈ pending cs) as Hin by (rewrite Hp; apply elem_of_cons; by left).
  apply list_elem_of_filter in Hin as [Hy Hin].
  apply Exists_exists. exists y. split; [done|congruence].
Qed.

(** Claim C10.  Matching by [_id] also matches two absent identities.
    Upserting a record without an identity into an array that already
    holds one replaces the first such record in place instead of appending:
    the length is unchanged and the new record takes the old one's place.
    Hence upserting never brings the records without an identity above
    one, any sequence of upserts from an empty array holds at most one,
    and a completed [syncLocalStorage] of a second pending record leaves
    it as the only pending record of both arrays it upserts into. *)
Theorem pending_record_is_overwritten :
  (forall c cs,
      _id c = None -> pending cs <> [] ->
      (exists i old, cs !! i = Some old /\ _id old = None
                     /\ upsertOne c cs = <[i := c]> cs)
      /\ length (upsertOne c cs) = length cs
      /\ pending (upsertOne c cs) = c :: tail (pending cs))
  /\ (forall c cs,
        length (pending cs) <= 1 -> length (pending (upsertOne c cs)) <= 1)
  /\ (forall cs,
        length (pending (foldl (fun acc c => upsertOne c acc) [] cs)) <= 1)
  /\ (forall accepts c w w' k old,
        _id c = None ->
        syncLocalStorage accepts c w = (w', Ok tt) ->
        k = "adminCourses" \/ k = "edutube_courses" ->
        pending (slot_courses w k) = [old] ->
        pending (slot_courses w' k) = [c]
        /\ length (slot_courses w' k) = length (slot_courses w k)).
Proof.
  split_and!.
  - intros c cs Hc Hne.
    pose proof (pending_nonempty_Exists c cs Hc Hne) as Hex.
    split_and!.
    + destruct (upsertOne_cases c cs) as [(i & old & Hi & Hid & _ & Hup)|[Hall _]].
      * exists i, old. split_and!; [done|congruence|done].
      * apply Exists_exists in Hex as (y & Hy & Hid).
        rewrite Forall_forall in Hall. by destruct (Hall y Hy).
    + by apply length_upsertOne_found.
    + by apply pending_upsertOne.
  - apply pending_upsertOne_at_most_one.
  - intros cs. apply pending_foldl_upsertOne. simpl. lia.
  - intros accepts c w w' k old Hc (Ha & He & _ & _)%syncLocalStorage_slots Hk Hold.
    assert (slot_courses w' k = upsertOne c (slot_courses w k)) as ->
      by (by destruct Hk as [-> | ->]).
    split.
    + rewrite pending_upsertOne by done. by rewrite Hold.
    + apply length_upsertOne_found, pending_nonempty_Exists; [done|].
      by rewrite Hold.
Qed.

Lemma pending_record_is_overwritten_witness :
  (length (upsertOne draft_2 [rec_1; draft_1]) = 2
   /\ pending (upsertOne draft_2 [rec_1; draft_1]) = [draft_2])
  /\ pending (slot_courses
                (fst (syncLocalStorage roomy draft_2 (world (mirror_of [rec_1; draft_1]) [])))
                "adminCourses")
     = [draft_2]
  /\ length (pending (upsertOne rec_x [draft_1])) <= 1.
Proof.
  destruct pending_record_is_overwritten as (Hlist & Hkeep & _ & Hsync).
  split; [|split].
  - assert (pending [rec_1; draft_1] <> []) as Hne by (vm_compute; intros [=]).
    destruct (Hlist draft_2 [rec_1; draft_1] eq_refl Hne) as (_ & Hlen & Hp).
    split; [exact Hlen|exact Hp].
  - eapply (Hsync roomy draft_2 (world (mirror_of [rec_1; draft_1]) []) _
              "adminCourses" draft_1); first [reflexivity | vm_compute; reflexivity | left; reflexivity].
  - apply Hkeep. vm_compute. lia.
Defined.

(** * Further properties of the synchronisation code *)

(** ** The remaining functions of sync-courses-global.js *)

Lemma network_set_storage s w : network (set_storage s w) = network w.
Proof. done. Qed.

Lemma fetch_run req w :
  localStorage (fetched req w) = localStorage w
  /\ network (fetched req w) = tail (network w)
  /\ sent (fetched req w) = sent w ++ [req]
  /\ fetch req w
     = (fetched req w,
        match network w with
        | Http r :: _ => Ok r
        | _ => Throw NetworkError
        end).
Proof.
  unfold fetched, fetch. destruct (network w) as [|[|[s st tx b]] rest]; done.
Qed.

#[local] Arguments response_ok : simpl never.

Lemma checkCourseExistsInMongoDB_run ep courseId w :
  checkCourseExistsInMongoDB ep courseId w
  = (fetched (probe ep courseId) w,
     Ok (match network w with
         | Http r :: _ =>
             response_ok r
             && match json r with
                | Some (PCourse c) => truthy (_id c)
                | _ => false
                end
         | _ => false
         end)).
Proof.
  unfold checkCourseExistsInMongoDB, try_catch, bind at 1.
  destruct (fetch_run (probe ep courseId) w) as (_ & _ & _ & Hf).
  unfold probe in *. rewrite Hf.
  destruct (network w) as [|[|[s st tx b]] rest]; [done..|].
  destruct (response_ok (Build_Reply s st tx b)); [|done].
  unfold bind, response_json. simpl. by destruct b as [[| | |]|].
Qed.

Lemma saveCourseToDB_total ep chars c w :
  exists w' b, saveCourseToDB ep chars c w = (w', Ok b)
               /\ localStorage w' = localStorage w
               /\ (offline w -> offline w').
Proof.
  unfold saveCourseToDB, try_catch, bind at 1, getItem at 1.
  destruct (nonempty (localStorage w !! "token")) as [t|]; [|by eexists _, _].
  set (req := {| url := _ |}).
  destruct (fetch_run req w) as (Hs & Hn & _ & Hf).
  assert (offline w -> offline (fetched req w)) as Hoff.
  { unfold offline. rewrite Hn. intros Hall. destruct (network w); [done|].
    by apply Forall_cons in Hall as [_ ?]. }
  unfold bind at 1. rewrite Hf.
  destruct (network w) as [|[|[s st tx b]] rest]; [by eexists _, _..|].
  destruct (negb (response_ok (Build_Reply s st tx b))); [by eexists _, _|].
  unfold bind, response_json. simpl.
  destruct b as [[| | |]|]; simpl; by eexists _, _.
Qed.

Lemma offline_tail w w' : network w' = tail (network w) -> offline w -> offline w'.
Proof.
  unfold offline. intros -> Hall. destruct (network w); [done|].
  by apply Forall_cons in Hall as [_ ?].
Qed.

Lemma offline_remote_fails w : offline w -> remote_fails w = true.
Proof.
  unfold offline, remote_fails. destruct (network w) as [|[|[s st tx b]] rest]; [done..|].
  by intros [? _]%Forall_cons.
Qed.

Lemma fetchMongoDBCourses_network accepts ep force w :
  network (fst (fetchMongoDBCourses accepts ep force w)) = tail (network w).
Proof.
  unfold fetchMongoDBCourses, try_catch.
  destruct (fetchMongoDBCourses_try accepts ep force w) as [w' r] eqn:Hrun.
  assert (network w' = tail (network w)) as Hnet.
  { revert Hrun. unfold fetchMongoDBCourses_try.
    intros [(w1 & target & Ht & H)|(e & Ht & ?)]%bind_inv.
    2:{ destruct force; [|done]. unfold bind, Date_now in Ht. done. }
    assert (network w1 = network w) as <-.
    { destruct force; [|by injection Ht as <- _].
      unfold bind, Date_now, ret in Ht. by injection Ht as <- _. }
    set (req := {| url := target; method := "GET"; headers := no_cache_headers;
                   body := None |}) in *.
    destruct (fetch_run req w1) as (_ & Hn & _ & Hf).
    apply bind_inv in H as [(w2 & resp & Hfetch & H)|(e & Hfetch & ?)].
    2:{ rewrite Hf in Hfetch. by injection Hfetch as <- _. }
    rewrite Hf in Hfetch. assert (w2 = fetched req w1) as Hw2 by (by injection Hfetch).
    subst w2. rewrite <- Hn. clear Hfetch Hf Hn.
    destruct (negb (response_ok resp)); [by injection H as <- _|].
    apply bind_inv in H as [(w3 & courses & Hj & H)|(e & Hj & ?)].
    2:{ unfold response_json in Hj. destruct (json resp); by injection Hj as <- _. }
    assert (w3 = fetched req w1) as Hw3.
    { unfold response_json in Hj. destruct (json resp); by injection Hj. }
    subst w3.
    apply bind_inv in H as [(w4 & n & Hl & H)|(e & Hl & ?)].
    2:{ destruct courses; by injection Hl as <- _. }
    assert (w4 = fetched req w1) as Hw4 by (destruct courses; by injection Hl).
    subst w4.
    rewrite !bind_setItem in H. unfold setItem, ret in H.
    repeat (destruct (accepts _ _ _) in H); by injection H as <- _. }
  by destruct r.
Qed.

Lemma fetchMongoDBCourses_offline accepts ep force w :
  offline w ->
  exists w', fetchMongoDBCourses accepts ep force w = (w', Ok (PCourses []))
             /\ localStorage w' = localStorage w /\ offline w'.
Proof.
  intros Hoff.
  destruct (fetchMongoDBCourses_remote_fails accepts ep force w (offline_remote_fails w Hoff))
    as (w' & Hrun & Hsame).
  exists w'. split_and!; [done..|].
  apply (offline_tail w); [|done].
  pose proof (fetchMongoDBCourses_network accepts ep force w) as Hn.
  by rewrite Hrun in Hn.
Qed.

Lemma syncLocalStorage_network accepts c w w' r :
  syncLocalStorage accepts c w = (w', r) -> network w' = network w /\ sent w' = sent w.
Proof.
  unfold syncLocalStorage.
  rewrite (bind_ok _ _ _ _ _ (read_slot_spec _ _)).
  rewrite (bind_ok _ _ _ _ _ (read_slot_spec _ _)).
  intros [(w1 & admin & [_ ->]%as_array_ok & H)|(e & Ha & ?)]%bind_inv.
  2:{ destruct (slot_payload w "adminCourses"); by injection Ha as <- _. }
  apply bind_inv in H as [(w2 & edutube & [_ ->]%as_array_ok & H)|(e & Ha & ?)].
  2:{ destruct (slot_payload w "edutube_courses"); by injection Ha as <- _. }
  rewrite !bind_setItem in H. unfold setItem in H.
  repeat (destruct (accepts _ _ _) in H); by injection H as <- _.
Qed.

(** [syncCourse] answers [true] whenever the local upsert went through:
    every remote step swallows its own failures, so the [catch] that would
    answer [false] is never taken; a failing local upsert is raised to the
    caller instead. *)
Theorem syncCourse_never_reports_failure accepts ep chars c w :
  (forall w1, syncLocalStorage accepts c w = (w1, Ok tt) ->
     exists w', syncCourse accepts ep chars c w = (w', Ok true))
  /\ (forall w1 e, syncLocalStorage accepts c w = (w1, Throw e) ->
        syncCourse accepts ep chars c w = (w1, Throw e))
  /\ snd (syncCourse accepts ep chars c w) <> Ok false.
Proof.
  assert (forall w1, syncLocalStorage accepts c w = (w1, Ok tt) ->
            exists w', syncCourse accepts ep chars c w = (w', Ok true)) as Hok.
  { intros w1 Hlocal. unfold syncCourse. rewrite (bind_ok _ _ _ _ _ Hlocal).
    unfold try_catch.
    destruct (fetchMongoDBCourses_total accepts ep true w1) as (w2 & p & H2).
    rewrite (bind_ok _ _ _ _ _ H2).
    rewrite (bind_ok _ _ _ _ _ (checkCourseExistsInMongoDB_run _ _ _)).
    set (w3 := fetched _ w2).
    destruct (saveCourseToDB_total ep chars c w3) as (w4 & b & H4 & _).
    match goal with |- context [negb ?x] => destruct x end; simpl.
    - unfold bind at 1, ret at 1.
      destruct (fetchMongoDBCourses_total accepts ep true w3) as (w5 & q & H5).
      rewrite (bind_ok _ _ _ _ _ H5). by eexists.
    - unfold bind at 1, bind at 1. rewrite H4. unfold ret at 1.
      destruct (fetchMongoDBCourses_total accepts ep true w4) as (w5 & q & H5).
      rewrite (bind_ok _ _ _ _ _ H5). by eexists. }
  split_and!; [exact Hok| |].
  - intros w1 e Hlocal. unfold syncCourse. by rewrite (bind_throw _ _ _ _ _ Hlocal).
  - destruct (syncLocalStorage accepts c w) as [w1 [[]|e]] eqn:Hlocal.
    + destruct (Hok w1 eq_refl) as (w' & ->). done.
    + unfold syncCourse. by rewrite (bind_throw _ _ _ _ _ Hlocal).
Qed.

Lemma syncCourse_never_reports_failure_witness :
  (exists w', syncCourse roomy endpoint plain draft_1 (world (mirror_of [rec_1]) [server_error])
              = (w', Ok true))
  /\ syncCourse roomy endpoint plain draft_1
       (world (<["adminCourses" := Json PNull]> ∅) [])
     = (world (<["adminCourses" := Json PNull]> ∅) [], Throw TypeError).
Proof.
  split.
  - eapply (syncCourse_never_reports_failure roomy endpoint plain draft_1
              (world (mirror_of [rec_1]) [server_error])).
    vm_compute. reflexivity.
  - apply (syncCourse_never_reports_failure roomy endpoint plain draft_1
             (world (<["adminCourses" := Json PNull]> ∅) [])).
    vm_compute. reflexivity.
Defined.

(** With the remote store out of reach for the whole call, [syncCourse]
    still answers [true] and the mirror keeps exactly what the local upsert
    wrote: the local copy is the fallback. *)
Theorem syncCourse_offline_keeps_local_upsert accepts ep chars c w w1 :
  offline w ->
  syncLocalStorage accepts c w = (w1, Ok tt) ->
  exists w', syncCourse accepts ep chars c w = (w', Ok true)
             /\ localStorage w' = localStorage w1.
Proof.
  intros Hoff Hlocal.
  assert (offline w1) as Hoff1.
  { unfold offline. by destruct (syncLocalStorage_network _ _ _ _ _ Hlocal) as [-> _]. }
  unfold syncCourse. rewrite (bind_ok _ _ _ _ _ Hlocal). unfold try_catch.
  destruct (fetchMongoDBCourses_offline accepts ep true w1 Hoff1) as (w2 & H2 & Hs2 & Hoff2).
  rewrite (bind_ok _ _ _ _ _ H2).
  rewrite (bind_ok _ _ _ _ _ (checkCourseExistsInMongoDB_run _ _ _)).
  destruct (fetch_run (probe ep (_id c)) w2) as (Hs3 & Hn3 & _ & _).
  set (w3 := fetched _ w2) in *.
  pose proof (offline_tail w2 w3 Hn3 Hoff2) as Hoff3.
  destruct (saveCourseToDB_total ep chars c w3) as (w4 & b & H4 & Hs4 & Hoff4).
  match goal with |- context [negb ?x] => destruct x end; simpl.
  - unfold bind at 1, ret at 1.
    destruct (fetchMongoDBCourses_offline accepts ep true w3 Hoff3) as (w5 & H5 & Hs5 & _).
    rewrite (bind_ok _ _ _ _ _ H5). eexists. split; [done|]. congruence.
  - unfold bind at 1, bind at 1. rewrite H4. unfold ret at 1.
    destruct (fetchMongoDBCourses_offline accepts ep true w4 (Hoff4 Hoff3))
      as (w5 & H5 & Hs5 & _).
    rewrite (bind_ok _ _ _ _ _ H5). eexists. split; [done|]. congruence.
Qed.

Lemma syncCourse_offline_keeps_local_upsert_witness :
  exists w', syncCourse roomy endpoint plain draft_1
               (world (mirror_of [rec_1]) [server_error; Rejected; Rejected])
             = (w', Ok true)
             /\ localStorage w' = mirror_of [rec_1; draft_1].
Proof.
  apply (syncCourse_offline_keeps_local_upsert roomy endpoint plain draft_1
           (world (mirror_of [rec_1]) [server_error; Rejected; Rejected])
           (world (mirror_of [rec_1; draft_1]) [server_error; Rejected; Rejected])).
  - repeat constructor.
  - vm_compute. reflexivity.
Defined.

Lemma fetchMongoDBCourses_success accepts ep force w r cs rest :
  (forall st k v, accepts st k v = true) ->
  network w = Http r :: rest ->
  json r = Some (PCourses cs) ->
  response_ok r = true ->
  exists w',
    fetchMongoDBCourses accepts ep force w = (w', Ok (PCourses cs))
    /\ localStorage w' =
       written4 "adminCourses" "edutube_courses" "courses_data" "user_courses"
         (Json (PCourses cs)) (Json (PCourses cs)) (Json (PCourses cs)) (Json (PCourses cs))
         (localStorage w)
    /\ network w' = rest.
Proof.
  intros Hall Hnet Hjson Hok.
  unfold fetchMongoDBCourses, try_catch, fetchMongoDBCourses_try.
  destruct force; unfold bind at 1; simpl.
  all: unfold bind at 1, fetch at 1; simpl; rewrite Hnet, Hok; simpl.
  all: unfold bind at 1, response_json, ret at 1; rewrite Hjson; simpl.
  all: unfold bind at 1, ret at 1.
  all: rewrite !bind_setItem; unfold setItem; rewrite !Hall; simpl.
  all: eexists; split_and!; reflexivity.
Qed.

Lemma fetchMongoDBCourses_sent accepts ep force w :
  exists req, sent (fst (fetchMongoDBCourses accepts ep force w)) = sent w ++ [req].
Proof.
  destruct (fetchMongoDBCourses_request_defeats_caches accepts ep force w) as (req & H & _).
  eauto.
Qed.

(** When the remote store knows the course and the closing pull succeeds,
    [syncCourse] leaves every slot of the mirror with the remote listing,
    whatever the local upsert had written: the remote store wins, after
    exactly three requests. *)
Theorem syncCourse_remote_listing_wins accepts ep chars c w w1 a1 r2 f r3 cs rest :
  (forall st k v, accepts st k v = true) ->
  syncLocalStorage accepts c w = (w1, Ok tt) ->
  network w = a1 :: Http r2 :: Http r3 :: rest ->
  json r2 = Some (PCourse f) ->
  response_ok r2 = true ->
  truthy (_id f) = true ->
  json r3 = Some (PCourses cs) ->
  response_ok r3 = true ->
  exists w',
    syncCourse accepts ep chars c w = (w', Ok true)
    /\ (forall k, k ∈ slots -> localStorage w' !! k = Some (Json (PCourses cs)))
    /\ network w' = rest
    /\ length (sent w') = length (sent w) + 3.
Proof.
  intros Hall Hlocal Hnet Hjson2 Hok2 Hid Hjson3 Hok3.
  destruct (syncLocalStorage_network _ _ _ _ _ Hlocal) as [Hn1 Hs1].
  unfold syncCourse. rewrite (bind_ok _ _ _ _ _ Hlocal). unfold try_catch.
  destruct (fetchMongoDBCourses_total accepts ep true w1) as (w2 & p & H2).
  pose proof (fetchMongoDBCourses_network accepts ep true w1) as Hn2.
  destruct (fetchMongoDBCourses_sent accepts ep true w1) as (r1 & Hs2).
  rewrite H2 in Hn2, Hs2. simpl in Hn2, Hs2. rewrite Hn1, Hnet in Hn2. simpl in Hn2.
  rewrite (bind_ok _ _ _ _ _ H2).
  rewrite (bind_ok _ _ _ _ _ (checkCourseExistsInMongoDB_run _ _ _)).
  destruct (fetch_run (probe ep (_id c)) w2) as (_ & Hn3 & Hs3 & _).
  set (w3 := fetched _ w2) in *.
  rewrite Hn2 in *. simpl in Hn3. rewrite Hok2, Hjson2, Hid. simpl.
  unfold bind at 1, ret at 1.
  destruct (fetchMongoDBCourses_success accepts ep true w3 r3 cs rest Hall Hn3 Hjson3 Hok3)
    as (w4 & H4 & Hst4 & Hn4).
  destruct (fetchMongoDBCourses_sent accepts ep true w3) as (r4 & Hs4).
  rewrite H4 in Hs4. simpl in Hs4.
  rewrite (bind_ok _ _ _ _ _ H4). exists w4. split_and!; [done| |done|].
  - intros k Hk%elem_of_slots. rewrite Hst4. by apply lookup_written4.
  - rewrite Hs4, Hs3, Hs2, Hs1. rewrite !length_app. simpl. lia.
Qed.

Lemma syncCourse_remote_listing_wins_witness :
  exists w',
    syncCourse roomy endpoint plain rec_T2
      (world (mirror_of [rec_T1]) [listing [rec_T1]; found rec_T1; listing [rec_1]])
    = (w', Ok true)
    /\ (forall k, k ∈ slots -> localStorage w' !! k = Some (Json (PCourses [rec_1])))
    /\ network w' = []
    /\ length (sent w') = 0 + 3.
Proof.
  eapply (syncCourse_remote_listing_wins roomy endpoint plain rec_T2
            (world (mirror_of [rec_T1]) [listing [rec_T1]; found rec_T1; listing [rec_1]]));
    first [reflexivity | vm_compute; reflexivity].
Defined.

Lemma saveCourseToDB_with_token ep chars c w t :
  nonempty (localStorage w !! "token") = Some t ->
  exists b,
    saveCourseToDB ep chars c w
    = (fetched {| url := if truthy (_id c)
                         then ep +:+ "/" +:+ template (_id c) else ep;
                  method := if truthy (_id c) then "PUT" else "POST";
                  headers := [("Content-Type", "application/json");
                              bearer (text_chars chars t)];
                  body := Some (Json (PCourse c)) |} w,
       Ok b)
    /\ (b = true <->
        exists r p rest, network w = Http r :: rest /\ json r = Some p
                         /\ response_ok r = true /\ p <> PNull).
Proof.
  intros Hsome. unfold saveCourseToDB, try_catch, bind at 1, getItem at 1.
  rewrite Hsome. set (req := {| url := _ |}).
  destruct (fetch_run req w) as (_ & _ & _ & Hf).
  unfold bind at 1. rewrite Hf.
  destruct (network w) as [|[|[s st tx b]] rest].
  1,2: exists false; split; [done|]; split; [done|]; by intros (? & ? & ? & ? & _).
  destruct (response_ok (Build_Reply s st tx b)) eqn:Hok; simpl.
  - unfold bind, response_json. simpl.
    destruct b as [[| | |]|]; simpl; eexists; (split; [reflexivity|]); split;
      try done; try (intros _; eexists _, _, _; by split_and!);
      intros (? & ? & ? & [= <- <-] & Hj & _ & ?); simpl in Hj; by simplify_eq.
  - exists false. split; [done|]. split; [done|].
    intros (? & ? & ? & [= <- <-] & _ & Hok' & _). congruence.
Qed.

(** [saveCourseToDB] never raises and never writes to storage.  Without a
    token in storage it sends nothing and answers [false].  With one it
    sends a single request, [PUT] to the course's URL when the course has
    an identity and [POST] to the collection otherwise, carrying the course
    as it is; it answers [true] exactly when the answer is a success whose
    body is JSON other than [null]. *)
Theorem saveCourseToDB_outcome ep chars c w :
  (nonempty (localStorage w !! "token") = None ->
     saveCourseToDB ep chars c w = (w, Ok false))
  /\ (forall t, nonempty (localStorage w !! "token") = Some t ->
        exists b,
          saveCourseToDB ep chars c w
          = (fetched {| url := if truthy (_id c)
                               then ep +:+ "/" +:+ template (_id c) else ep;
                        method := if truthy (_id c) then "PUT" else "POST";
                        headers := [("Content-Type", "application/json");
                                    bearer (text_chars chars t)];
                        body := Some (Json (PCourse c)) |} w,
             Ok b)
          /\ (b = true <->
              exists r p rest, network w = Http r :: rest /\ json r = Some p
                               /\ response_ok r = true /\ p <> PNull)).
Proof.
  split.
  - intros Hnone. unfold saveCourseToDB, try_catch, bind at 1, getItem at 1.
    by rewrite Hnone.
  - intros t. apply saveCourseToDB_with_token.
Qed.

Lemma saveCourseToDB_outcome_witness :
  saveCourseToDB endpoint plain draft_1 (world (mirror_of [rec_1]) [created])
  = (world (mirror_of [rec_1]) [created], Ok false)
  /\ exists b, snd (saveCourseToDB endpoint plain draft_1 (world stored_token [created]))
               = Ok b.
Proof.
  destruct (saveCourseToDB_outcome endpoint plain draft_1
              (world (mirror_of [rec_1]) [created])) as [Hnone _].
  destruct (saveCourseToDB_outcome endpoint plain draft_1
              (world stored_token [created])) as [_ Hsome].
  split.
  - apply Hnone. vm_compute. reflexivity.
  - destruct (Hsome (Malformed "jwt")) as (b & Hrun & _); [vm_compute; reflexivity|].
    exists b. rewrite Hrun. reflexivity.
Defined.

(** [checkCourseExistsInMongoDB] never raises and never writes to storage.
    It sends one request, to the URL ending in [/undefined] when the course
    has no identity, and answers [true] exactly when the answer is a
    success whose body is a course carrying an identity. *)
Theorem checkCourseExistsInMongoDB_outcome ep courseId w :
  exists b,
    checkCourseExistsInMongoDB ep courseId w = (fetched (probe ep courseId) w, Ok b)
    /\ localStorage (fetched (probe ep courseId) w) = localStorage w
    /\ sent (fetched (probe ep courseId) w) = sent w ++ [probe ep courseId]
    /\ url (probe ep None) = ep +:+ "/undefined"
    /\ (b = true <->
        exists r c rest, network w = Http r :: rest /\ json r = Some (PCourse c)
                         /\ response_ok r = true
                         /\ truthy (_id c) = true).
Proof.
  rewrite checkCourseExistsInMongoDB_run.
  destruct (fetch_run (probe ep courseId) w) as (Hs & _ & Hsent & _).
  eexists. split_and!; [reflexivity|done|done|done|].
  destruct (network w) as [|[|[s st tx b]] rest].
  1,2: split; [done|]; by intros (? & ? & ? & ? & _).
  split.
  - intros [Hok Hid]%andb_true_iff. simpl in Hid. destruct b as [[| |c|]|]; try done.
    by eexists _, c, rest.
  - intros (? & c & ? & [= <- <-] & Hj & Hok & Hid). rewrite Hok, Hj. simpl. exact Hid.
Qed.

Lemma storage_entry_run locale k w :
  exists e,
    storage_entry locale k w = (w, Ok (k, e))
    /\ (forall cs, localStorage w !! k = Some (Json (PCourses cs)) ->
          Report.count e = Some (length cs)).
Proof.
  unfold storage_entry, try_catch, bind at 1, getItem at 1.
  destruct (localStorage w !! k) as [[p|s]|] eqn:Hk; simpl.
  - unfold bind at 1, ret at 1. unfold describe.
    destruct p as [|cs| |]; simpl.
    + eexists. split; [reflexivity|]. intros; simplify_eq.
    + unfold bind at 1, bind at 1, ret at 1.
      destruct cs as [|c cs]; simpl; eexists; (split; [reflexivity|]);
        intros; by simplify_eq.
    + eexists. split; [reflexivity|]. intros; simplify_eq.
    + eexists. split; [reflexivity|]. intros; simplify_eq.
  - destruct (negb (s =? ""))%string; simpl; eexists; (split; [reflexivity|]);
      intros; simplify_eq.
  - eexists. split; [reflexivity|]. intros; simplify_eq.
Qed.

Lemma describe_listing locale cs w :
  exists e, describe locale (PCourses cs) w = (w, Ok e)
            /\ Report.count e = Some (length cs).
Proof.
  unfold describe, bind, js_length, ret. destruct cs; simpl; eauto.
Qed.

(** [checkAllStorage] is no read-only diagnostic.  Its table describes the
    four slots as they were when it was called, but its closing pull
    writes: after a successful pull every slot holds the remote listing,
    so the table may already be out of date.  When the pull fails storage
    is unchanged and the remote line reads zero courses, like an empty
    catalogue. *)
Theorem checkAllStorage_is_not_read_only accepts ep locale w :
  exists w' report,
    checkAllStorage accepts ep locale w = (w', Ok report)
    /\ map fst report = slots ++ ["mongoDB"]
    /\ (forall k cs, k ∈ slots -> localStorage w !! k = Some (Json (PCourses cs)) ->
          exists e, (k, e) ∈ report /\ Report.count e = Some (length cs))
    /\ (forall r remote rest,
          (forall st k v, accepts st k v = true) ->
          network w = Http r :: rest ->
          json r = Some (PCourses remote) ->
          response_ok r = true ->
          (forall k, k ∈ slots -> localStorage w' !! k = Some (Json (PCourses remote)))
          /\ exists e, ("mongoDB", e) ∈ report /\ Report.count e = Some (length remote))
    /\ (remote_fails w = true ->
          localStorage w' = localStorage w
          /\ exists e, ("mongoDB", e) ∈ report /\ Report.count e = Some 0).
Proof.
  unfold checkAllStorage.
  destruct (storage_entry_run locale "adminCourses" w) as (e1 & H1 & C1).
  destruct (storage_entry_run locale "edutube_courses" w) as (e2 & H2 & C2).
  destruct (storage_entry_run locale "courses_data" w) as (e3 & H3 & C3).
  destruct (storage_entry_run locale "user_courses" w) as (e4 & H4 & C4).
  assert (for_each (storage_entry locale)
            ["adminCourses"; "edutube_courses"; "courses_data"; "user_courses"] w
          = (w, Ok [("adminCourses", e1); ("edutube_courses", e2);
                    ("courses_data", e3); ("user_courses", e4)])) as Hlocal.
  { simpl. unfold bind. rewrite H1, H2, H3, H4. done. }
  rewrite (bind_ok _ _ _ _ _ Hlocal).
  destruct (fetchMongoDBCourses_total accepts ep true w) as (w' & p & Hpull).
  assert (exists e, describe locale p w' = (w', Ok e)
                    /\ forall cs, p = PCourses cs -> Report.count e = Some (length cs))
    as (e5 & Hdesc & C5).
  { destruct p as [|cs| |].
    - exfalso. unfold fetchMongoDBCourses in Hpull.
      apply try_catch_inv in Hpull as [(a & Hrun & [= <-])|(w1 & e & _ & ?)]; [|done].
      unfold fetchMongoDBCourses_try in Hrun.
      apply bind_inv in Hrun as [(? & ? & _ & H)|(? & _ & ?)]; [|done].
      apply bind_inv in H as [(? & resp & _ & H)|(? & _ & ?)]; [|done].
      destruct (negb (response_ok resp)); [done|].
      apply bind_inv in H as [(? & courses & _ & H)|(? & _ & ?)]; [|done].
      apply bind_inv in H as [(? & n & Hl & H)|(? & _ & ?)]; [|done].
      rewrite !bind_setItem in H. unfold setItem, ret in H.
      repeat (destruct (accepts _ _ _) in H; [|discriminate]).
      injection H as _ ->. done.
    - destruct (describe_listing locale cs w') as (e & ? & ?).
      exists e. split; [done|]. by intros ? [= <-].
    - eexists. split; [reflexivity|]. done.
    - eexists. split; [reflexivity|]. done. }
  exists w', [("adminCourses", e1); ("edutube_courses", e2);
              ("courses_data", e3); ("user_courses", e4); ("mongoDB", e5)].
  split_and!.
  - unfold bind at 1, try_catch. rewrite (bind_ok _ _ _ _ _ Hpull).
    rewrite (bind_ok _ _ _ _ _ Hdesc). done.
  - done.
  - intros k cs Hk%elem_of_slots Hslot.
    destruct Hk as [-> | [-> | [-> | ->]]]; eexists; (split; [|eauto]);
      rewrite !elem_of_cons; tauto.
  - intros r remote rest Hall Hnet Hjson Hok.
    destruct (fetchMongoDBCourses_success accepts ep true w r remote rest Hall Hnet Hjson Hok)
      as (w2 & Hrun & Hst & _).
    rewrite Hrun in Hpull. injection Hpull as <- <-. split.
    + intros k Hk%elem_of_slots. rewrite Hst. by apply lookup_written4.
    + exists e5. split; [|by apply C5]. rewrite !elem_of_cons. tauto.
  - intros Hfail.
    destruct (fetchMongoDBCourses_remote_fails accepts ep true w Hfail) as (w2 & Hrun & Hst).
    rewrite Hrun in Hpull. injection Hpull as <- <-. split; [done|].
    exists e5. split; [|by apply (C5 [])]. rewrite !elem_of_cons. tauto.
Qed.

Lemma checkAllStorage_is_not_read_only_witness :
  exists w' report,
    checkAllStorage roomy endpoint plain_date
      (world (mirror_of [rec_x]) [listing [rec_1; rec_2]]) = (w', Ok report)
    /\ (exists e, ("adminCourses", e) ∈ report /\ Report.count e = Some 1)
    /\ localStorage w' !! "adminCourses" = Some (Json (PCourses [rec_1; rec_2])).
Proof.
  destruct (checkAllStorage_is_not_read_only roomy endpoint plain_date
              (world (mirror_of [rec_x]) [listing [rec_1; rec_2]]))
    as (w' & report & Hrun & _ & Hold & Hnew & _).
  exists w', report. split; [exact Hrun|]. split.
  - apply (Hold "adminCourses" [rec_x]); [|vm_compute; reflexivity].
    unfold slots. apply elem_of_cons. left. reflexivity.
  - eapply (Hnew _ [rec_1; rec_2] []); try reflexivity.
    unfold slots. apply elem_of_cons. left. reflexivity.
Defined.





(** ** The poller's timers *)

Lemma tidy_no_timer_left s :
  Poller.tidy s ->
  Poller.timers (match Poller.refreshInterval s with
                 | Some h => Poller.clearInterval h s
                 | None => s
                 end) = ∅.
Proof.
  intros [Hone _]. apply map_eq. intros h. rewrite lookup_empty.
  destruct (Poller.refreshInterval s) as [h0|] eqn:Hr; simpl.
  - destruct (decide (h = h0)) as [->|Hne]; [by rewrite lookup_delete_eq|].
    rewrite lookup_delete_ne by done.
    destruct (Poller.timers s !! h) eqn:Hh; [|done].
    assert (Some h0 = Some h) by (apply Hone; by eexists). congruence.
  - destruct (Poller.timers s !! h) eqn:Hh; [|done].
    assert (None = Some h) by (apply Hone; by eexists). done.
Qed.

Lemma timers_startAutoRefresh ms s :
  Poller.tidy s ->
  Poller.timers (Poller.startAutoRefresh ms s) = {[ Poller.next_handle s := ms ]}.
Proof.
  intros Htidy. unfold Poller.startAutoRefresh, Poller.setInterval. simpl.
  rewrite (tidy_no_timer_left s Htidy).
  by destruct (Poller.refreshInterval s).
Qed.

Lemma tidy_act s a : Poller.tidy s -> Poller.tidy (Poller.act s a).
Proof.
  intros Htidy. destruct a as [ms| |[h|]]; simpl.
  - pose proof (timers_startAutoRefresh ms s Htidy) as Ht.
    assert (Poller.next_handle (Poller.startAutoRefresh ms s)
            = Pos.succ (Poller.next_handle s)) as Hn.
    { unfold Poller.startAutoRefresh. by destruct (Poller.refreshInterval s). }
    assert (Poller.refreshInterval (Poller.startAutoRefresh ms s)
            = Some (Poller.next_handle s)) as Hr.
    { unfold Poller.startAutoRefresh. by destruct (Poller.refreshInterval s). }
    split; intros h [x Hh]; rewrite Ht in Hh;
      apply lookup_singleton_Some in Hh as [<- _].
    + done.
    + rewrite Hn. lia.
  - pose proof (tidy_no_timer_left s Htidy) as Ht.
    unfold Poller.stopAutoRefresh.
    destruct (Poller.refreshInterval s) as [h0|]; simpl in *; [|done].
    split; intros h [x Hh]; by rewrite Ht in Hh.
  - destruct (Poller.timers s !! h); [|done]. exact Htidy.
  - exact Htidy.
Qed.

Lemma tidy_perform s acts : Poller.tidy s -> Poller.tidy (Poller.perform s acts).
Proof.
  revert s. induction acts as [|a acts IH]; intros s Htidy; [done|].
  apply IH. by apply tidy_act.
Qed.

Lemma tidy_initial : Poller.tidy Poller.initial.
Proof. split; intros h [x Hh]; done. Qed.

(** However [startAutoRefresh], [stopAutoRefresh] and the events of the
    event loop are interleaved, at most one interval timer is live; and
    right after [startAutoRefresh] exactly one is, the new one with the
    requested period: a second start replaces the timer of the first. *)
Theorem poller_has_one_timer (acts : list Poller.Action) :
  (forall h1 h2,
      is_Some (Poller.timers (Poller.perform Poller.initial acts) !! h1) ->
      is_Some (Poller.timers (Poller.perform Poller.initial acts) !! h2) ->
      h1 = h2)
  /\ (forall ms,
        Poller.timers (Poller.startAutoRefresh ms (Poller.perform Poller.initial acts))
        = {[ Poller.next_handle (Poller.perform Poller.initial acts) := ms ]}).
Proof.
  pose proof (tidy_perform Poller.initial acts tidy_initial) as Htidy.
  split.
  - destruct Htidy as [Hone _]. intros h1 h2 H1 H2.
    apply Hone in H1, H2. congruence.
  - intros ms. by apply timers_startAutoRefresh.
Qed.

Lemma poller_has_one_timer_witness :
  is_Some (Poller.timers
             (Poller.perform Poller.initial
                [Poller.CallStart 5000; Poller.Deliver (Poller.Tick 1);
                 Poller.CallStart 1000]) !! 2%positive)
  /\ 2%positive = 2%positive
  /\ Poller.timers
       (Poller.startAutoRefresh 1000
          (Poller.perform Poller.initial [Poller.CallStart 5000]))
     = {[ 2%positive := 1000%N ]}.
Proof.
  assert (is_Some (Poller.timers
             (Poller.perform Poller.initial
                [Poller.CallStart 5000; Poller.Deliver (Poller.Tick 1);
                 Poller.CallStart 1000]) !! 2%positive)) as Hlive
    by (vm_compute; eexists; reflexivity).
  split; [exact Hlive|]. split.
  - exact (proj1 (poller_has_one_timer
                    [Poller.CallStart 5000; Poller.Deliver (Poller.Tick 1);
                     Poller.CallStart 1000]) 2%positive 2%positive Hlive Hlive).
  - exact (proj2 (poller_has_one_timer [Poller.CallStart 5000]) 1000%N).
Defined.

Lemma run_without_timers s es :
  Poller.timers s = ∅ ->
  Poller.started (Poller.run s es) = Poller.started s
  /\ Poller.in_flight (Poller.run s es) <= Poller.in_flight s.
Proof.
  revert s. induction es as [|e es IH]; intros s Hs; [done|].
  unfold Poller.run in *. simpl. destruct e as [h|]; simpl.
  - rewrite Hs, lookup_empty. by apply IH.
  - destruct (IH {| Poller.refreshInterval := Poller.refreshInterval s;
                    Poller.timers := Poller.timers s;
                    Poller.next_handle := Poller.next_handle s;
                    Poller.in_flight := pred (Poller.in_flight s);
                    Poller.started := Poller.started s |} Hs) as [-> Hle].
    simpl in *. split; [done|]. lia.
Qed.

(** [stopAutoRefresh] silences the poller without aborting anything: the
    fetches in flight stay in flight, but whatever events follow, no tick
    begins a fetch any more. *)
Theorem stopAutoRefresh_silences_the_poller (acts : list Poller.Action)
    (es : list Poller.Event) :
  Poller.in_flight (fst (Poller.stopAutoRefresh (Poller.perform Poller.initial acts)))
  = Poller.in_flight (Poller.perform Poller.initial acts)
  /\ Poller.started
       (Poller.run (fst (Poller.stopAutoRefresh (Poller.perform Poller.initial acts))) es)
     = Poller.started (Poller.perform Poller.initial acts)
  /\ Poller.in_flight
       (Poller.run (fst (Poller.stopAutoRefresh (Poller.perform Poller.initial acts))) es)
     <= Poller.in_flight (Poller.perform Poller.initial acts).
Proof.
  pose proof (tidy_perform Poller.initial acts tidy_initial) as Htidy.
  set (s := Poller.perform Poller.initial acts) in *.
  pose proof (tidy_no_timer_left s Htidy) as Hempty.
  assert (Poller.timers (fst (Poller.stopAutoRefresh s)) = ∅) as Hstop.
  { unfold Poller.stopAutoRefresh. by destruct (Poller.refreshInterval s). }
  assert (Poller.in_flight (fst (Poller.stopAutoRefresh s)) = Poller.in_flight s
          /\ Poller.started (fst (Poller.stopAutoRefresh s)) = Poller.started s)
    as [Hf Hst].
  { unfold Poller.stopAutoRefresh. by destruct (Poller.refreshInterval s). }
  destruct (run_without_timers _ es Hstop) as [Hs Hle].
  split_and!; [done|congruence|lia].
Qed.

(** ** Authentication *)

Lemma split_on_without_separator sep t :
  forallb (fun a => negb (Ascii.eqb a sep)) (String.list_ascii_of_string t) = true ->
  split_on sep t = [t].
Proof.
  induction t as [|a t IH]; [done|]. simpl.
  intros [Ha Ht]%andb_true_iff. apply negb_true_iff in Ha. rewrite Ha.
  by rewrite (IH Ht).
Qed.

Lemma split_on_app sep s t :
  forallb (fun a => negb (Ascii.eqb a sep)) (String.list_ascii_of_string s) = true ->
  split_on sep (s +:+ String sep t) = s :: split_on sep t.
Proof.
  induction s as [|a s IH]; simpl.
  - intros _. by rewrite Ascii.eqb_refl.
  - intros [Ha Hs]%andb_true_iff. apply negb_true_iff in Ha. rewrite Ha.
    by rewrite (IH Hs).
Qed.

Lemma split_on_bearer t :
  split_on space ("Bearer " +:+ t) = "Bearer" :: split_on space t.
Proof.
  change ("Bearer " +:+ t) with ("Bearer" +:+ String space t).
  by apply split_on_app.
Qed.

Lemma prefix_append s t : String.prefix s (s +:+ t) = true.
Proof.
  induction s as [|a s IH]; simpl.
  - by destruct t.
  - by destruct (Ascii.ascii_dec a a).
Qed.

Lemma truthy_nonempty t : t <> "" -> truthy (Some t) = true.
Proof. intros Hne. simpl. apply negb_true_iff. by apply String.eqb_neq. Qed.

(** The header the client builds is the header the server reads: a
    non-empty token without spaces, sent as [bearer] builds it and with no
    [x-auth-token] header beside it, is the token the middleware verifies,
    and the request goes on exactly when [jwt.verify] yields a user. *)
Theorem auth_reads_the_client_bearer header verify t :
  header "x-auth-token" = None ->
  header "Authorization" = Some (snd (bearer t)) ->
  t <> "" ->
  forallb (fun a => negb (Ascii.eqb a space)) (String.list_ascii_of_string t) = true ->
  presented_token header = Some t
  /\ auth header verify
     = match verify t with
       | Some (Some user) => Next user
       | _ => Deny 401 "Token is not valid"
       end.
Proof.
  intros Hx Ha Hne Hspace.
  assert (presented_token header = Some t) as Htok.
  { unfold presented_token. rewrite Hx, Ha. cbn [truthy].
    change (snd (bearer t)) with ("Bearer " +:+ t).
    rewrite prefix_append.
    assert (negb (String.eqb ("Bearer " +:+ t) "") = true) as -> by reflexivity.
    cbn [andb].
    rewrite split_on_bearer, (split_on_without_separator _ _ Hspace). done. }
  split; [done|]. unfold auth. rewrite Htok, (truthy_nonempty t Hne).
  by destruct (verify t) as [[u|]|].
Qed.

Lemma auth_reads_the_client_bearer_witness :
  presented_token
    (fun name => if String.eqb name "Authorization" then Some (snd (bearer "a.b.c")) else None)
  = Some "a.b.c"
  /\ auth
       (fun name => if String.eqb name "Authorization" then Some (snd (bearer "a.b.c")) else None)
       (fun _ => Some (Some {| User.id := "u1"; User.role := "admin" |}))
     = Next {| User.id := "u1"; User.role := "admin" |}.
Proof.
  apply (auth_reads_the_client_bearer
           (fun name => if String.eqb name "Authorization"
                        then Some (snd (bearer "a.b.c")) else None)
           (fun _ => Some (Some {| User.id := "u1"; User.role := "admin" |}))
           "a.b.c"); first [reflexivity | intros [=]].
Defined.

(** A protected handler does its work only for a verified administrator:
    it goes on only when a non-empty token was presented, [jwt.verify]
    accepted it and the decoded user has the role [admin].  Every refusal
    is a 401 or a 403, and a 403 is sent only to a verified user of
    another role.  A token in [x-auth-token] is the one that counts, so a
    good [Authorization] header does not make up for a bad one there. *)
Theorem admin_only_admits_verified_admins header verify :
  (forall user, admin_only header verify = Next user ->
     User.role user = "admin"
     /\ exists token, presented_token header = Some token /\ token <> ""
                      /\ verify token = Some (Some user))
  /\ (forall status msg, admin_only header verify = Deny status msg ->
        status = 401
        \/ (status = 403
            /\ exists token user, presented_token header = Some token
                                  /\ verify token = Some (Some user)
                                  /\ User.role user <> "admin"))
  /\ (forall token, header "x-auth-token" = Some token -> token <> "" ->
        presented_token header = Some token).
Proof.
  split_and!.
  - intros user. unfold admin_only, auth.
    destruct (presented_token header) as [token|]; [|done].
    destruct (truthy (Some token)) eqn:Htr; [|done].
    destruct (verify token) as [[u|]|] eqn:Hv; try done.
    destruct (String.eqb (User.role u) "admin") eqn:Hrole; [|done].
    intros [= ->]. split; [by apply String.eqb_eq|].
    exists token. split_and!; [done| |done].
    intros ->. done.
  - intros status msg. unfold admin_only, auth.
    destruct (presented_token header) as [token|]; [|intros [= <- _]; by left].
    destruct (truthy (Some token)) eqn:Htr; [|intros [= <- _]; by left].
    destruct (verify token) as [[u|]|] eqn:Hv; try (intros [= <- _]; by left).
    destruct (String.eqb (User.role u) "admin") eqn:Hrole; [done|].
    intros [= <- _]. right. split; [done|]. exists token, u.
    split_and!; [done..|]. by apply String.eqb_neq.
  - intros token Hx Hne. unfold presented_token.
    by rewrite Hx, (truthy_nonempty token Hne).
Qed.

Lemma admin_only_admits_verified_admins_witness :
  User.role {| User.id := "u1"; User.role := "admin" |} = "admin"
  /\ presented_token
       (fun name => if String.eqb name "x-auth-token" then Some "bad"
                    else Some (snd (bearer "good")))
     = Some "bad".
Proof.
  destruct (admin_only_admits_verified_admins
              (fun name => if String.eqb name "x-auth-token" then Some "bad"
                           else Some (snd (bearer "good")))
              (fun _ => Some (Some {| User.id := "u1"; User.role := "admin" |})))
    as (Hadmit & _ & Hfirst).
  split.
  - apply (Hadmit {| User.id := "u1"; User.role := "admin" |}). reflexivity.
  - apply Hfirst; [reflexivity|intros [=]].
Defined.

(** ** The storage helpers of the admin dashboard *)

Lemma CS_getCourses_canonical accepts w t :
  nonempty (localStorage w !! CourseStorage.COURSE_STORAGE_KEY) = Some t ->
  CourseStorage.getCourses accepts w
  = (w, Ok (match t with Json p => p | Malformed _ => PCourses [] end)).
Proof.
  intros Ht. unfold CourseStorage.getCourses, try_catch, bind at 1, getItem at 1.
  rewrite Ht. by destruct t.
Qed.

Lemma CS_getCourses_array accepts w cs :
  localStorage w !! CourseStorage.COURSE_STORAGE_KEY = Some (Json (PCourses cs)) ->
  CourseStorage.getCourses accepts w = (w, Ok (PCourses cs)).
Proof.
  intros Hk. rewrite (CS_getCourses_canonical accepts w (Json (PCourses cs))); [done|].
  by rewrite Hk.
Qed.

Lemma CS_write_all_ok accepts cs w :
  (forall st k v, accepts st k v = true) ->
  CourseStorage.write_all accepts cs w
  = (set_storage
       (written4 CourseStorage.COURSE_STORAGE_KEY "adminCourses" "courses_data" "user_courses"
          (Json (PCourses cs)) (Json (PCourses cs)) (Json (PCourses cs)) (Json (PCourses cs))
          (localStorage w)) w,
     Ok tt).
Proof.
  intros Hall. unfold CourseStorage.write_all. rewrite !bind_setItem.
  unfold setItem. by rewrite !Hall.
Qed.

Lemma CS_written_slots cs s k :
  k ∈ slots ->
  written4 CourseStorage.COURSE_STORAGE_KEY "adminCourses" "courses_data" "user_courses"
    (Json (PCourses cs)) (Json (PCourses cs)) (Json (PCourses cs)) (Json (PCourses cs)) s !! k
  = Some (Json (PCourses cs)).
Proof.
  intros Hk%elem_of_slots. apply lookup_written4.
  unfold CourseStorage.COURSE_STORAGE_KEY. tauto.
Qed.

(** [getCourses] migrates from the old key.  When the new key is missing
    or empty and [adminCourses] holds JSON, that value is returned and its
    text copied to the new key, so that the next call reads it there.
    When the browser refuses the copy, the courses just parsed are dropped
    and the empty array is returned. *)
Theorem getCourses_migrates_the_old_key accepts w p :
  nonempty (localStorage w !! CourseStorage.COURSE_STORAGE_KEY) = None ->
  localStorage w !! "adminCourses" = Some (Json p) ->
  (accepts (localStorage w) CourseStorage.COURSE_STORAGE_KEY (Json p) = true ->
     CourseStorage.getCourses accepts w
     = (set_storage (<[CourseStorage.COURSE_STORAGE_KEY := Json p]> (localStorage w)) w, Ok p)
     /\ CourseStorage.getCourses accepts
          (set_storage (<[CourseStorage.COURSE_STORAGE_KEY := Json p]> (localStorage w)) w)
        = (set_storage (<[CourseStorage.COURSE_STORAGE_KEY := Json p]> (localStorage w)) w,
           Ok p))
  /\ (accepts (localStorage w) CourseStorage.COURSE_STORAGE_KEY (Json p) = false ->
        CourseStorage.getCourses accepts w = (w, Ok (PCourses []))).
Proof.
  intros Hnew Hold.
  assert (forall b, accepts (localStorage w) CourseStorage.COURSE_STORAGE_KEY (Json p) = b ->
            CourseStorage.getCourses accepts w
            = if b
              then (set_storage (<[CourseStorage.COURSE_STORAGE_KEY := Json p]> (localStorage w)) w,
                    Ok p)
              else (w, Ok (PCourses []))) as Hrun.
  { intros b Hb. unfold CourseStorage.getCourses, try_catch, bind at 1, getItem at 1.
    rewrite Hnew. unfold bind at 1, getItem at 1. rewrite Hold. simpl.
    unfold bind at 1, ret at 1. rewrite bind_setItem, Hb. by destruct b. }
  split.
  - intros Hyes. split; [by apply (Hrun true)|].
    rewrite (CS_getCourses_canonical accepts _ (Json p)); [done|].
    simpl. by rewrite lookup_insert_eq.
  - intros Hno. by apply (Hrun false).
Qed.

Lemma getCourses_migrates_the_old_key_witness :
  CourseStorage.getCourses roomy (world legacy [])
  = (world (<["edutube_courses" := Json (PCourses [rec_1])]> legacy) [], Ok (PCourses [rec_1]))
  /\ CourseStorage.getCourses (quota_policy 1) (world legacy [])
     = (world legacy [], Ok (PCourses [])).
Proof.
  destruct (getCourses_migrates_the_old_key roomy (world legacy []) (PCourses [rec_1]))
    as [Hyes _]; [reflexivity..|].
  destruct (getCourses_migrates_the_old_key (quota_policy 1) (world legacy [])
              (PCourses [rec_1])) as [_ Hno]; [reflexivity..|].
  split.
  - apply Hyes. reflexivity.
  - apply Hno. vm_compute. reflexivity.
Defined.

Lemma map_id_merge c cs :
  map _id (map (fun y => if bool_decide (_id y = _id c) then merge y c else y) cs)
  = map _id cs.
Proof.
  induction cs as [|y cs IH]; [done|]. simpl. rewrite IH. f_equal.
  case_bool_decide as Hy; [|done]. simpl. rewrite <- Hy. by destruct (_id y).
Qed.

Lemma filter_others_merge c cs :
  filter (fun y => _id y <> _id c)
    (map (fun y => if bool_decide (_id y = _id c) then merge y c else y) cs)
  = filter (fun y => _id y <> _id c) cs.
Proof.
  induction cs as [|y cs IH]; [done|]. simpl.
  case_bool_decide as Hy.
  - assert (_id (merge y c) = _id c) as Hm.
    { simpl. rewrite <- Hy. by destruct (_id y). }
    rewrite !filter_cons_False by (intros Hne; by apply Hne). done.
  - rewrite !filter_cons_True by done. by rewrite IH.
Qed.

(** On a mirror whose canonical slot holds an array, and with every write
    accepted, [saveCourse] leaves the same array in all four slots and
    [getCourses] reads it back.  The identities are those held before,
    with the new identity appended only when it was not there; records of
    any other identity are untouched; and an unknown identity appends the
    record as it is. *)
Theorem saveCourse_upserts_into_every_slot accepts c cs w :
  (forall st k v, accepts st k v = true) ->
  localStorage w !! CourseStorage.COURSE_STORAGE_KEY = Some (Json (PCourses cs)) ->
  exists w' r,
    CourseStorage.saveCourse accepts c w = (w', Ok tt)
    /\ (forall k, k ∈ slots -> localStorage w' !! k = Some (Json (PCourses r)))
    /\ CourseStorage.getCourses accepts w' = (w', Ok (PCourses r))
    /\ map _id r
       = map _id cs
         ++ (if existsb (fun y => bool_decide (_id y = _id c)) cs then [] else [_id c])
    /\ filter (fun y => _id y <> _id c) r = filter (fun y => _id y <> _id c) cs
    /\ (existsb (fun y => bool_decide (_id y = _id c)) cs = false -> r = cs ++ [c]).
Proof.
  intros Hall Hk.
  unfold CourseStorage.saveCourse, try_catch.
  rewrite (bind_ok _ _ _ _ _ (CS_getCourses_array accepts w cs Hk)).
  unfold bind at 1, as_array at 1, ret at 1.
  destruct (existsb _ cs) eqn:Hex; simpl; rewrite (CS_write_all_ok _ _ _ Hall).
  - eexists _, (map (fun y => if bool_decide (_id y = _id c) then merge y c else y) cs).
    split_and!; [reflexivity| | | | |done].
    + intros k Hk'. simpl. by apply CS_written_slots.
    + apply CS_getCourses_array. simpl. apply CS_written_slots.
      unfold slots. rewrite !elem_of_cons. tauto.
    + rewrite map_id_merge. by rewrite app_nil_r.
    + apply filter_others_merge.
  - eexists _, (cs ++ [c]). split_and!; [reflexivity| | | | |done].
    + intros k Hk'. simpl. by apply CS_written_slots.
    + apply CS_getCourses_array. simpl. apply CS_written_slots.
      unfold slots. rewrite !elem_of_cons. tauto.
    + by rewrite map_app.
    + rewrite filter_app. rewrite (filter_cons_False _ c) by (intros Hne; by apply Hne).
      by rewrite filter_nil, app_nil_r.
Qed.

Lemma saveCourse_upserts_into_every_slot_witness :
  exists w' r,
    CourseStorage.saveCourse roomy rec_T2 (world (mirror_of [rec_1; rec_T1]) []) = (w', Ok tt)
    /\ (forall k, k ∈ slots -> localStorage w' !! k = Some (Json (PCourses r)))
    /\ map _id r = [Some "1"; Some "x"].
Proof.
  destruct (saveCourse_upserts_into_every_slot roomy rec_T2 [rec_1; rec_T1]
              (world (mirror_of [rec_1; rec_T1]) []))
    as (w' & r & Hrun & Hslots & _ & Hids & _); [reflexivity..|].
  exists w', r. split; [exact Hrun|]. split; [exact Hslots|]. exact Hids.
Defined.

(** When the [try] block of [saveCourse] fails, because the stored value is
    no array or because the browser refuses the first write of the grown
    array, the [catch] block overwrites the two primary slots with an array
    holding the new course alone: the courses stored there before are
    gone. *)
Theorem saveCourse_fallback_keeps_only_the_new_course accepts c w p :
  localStorage w !! CourseStorage.COURSE_STORAGE_KEY = Some (Json p) ->
  match p with
  | PCourses cs =>
      existsb (fun y => bool_decide (_id y = _id c)) cs = false
      /\ accepts (localStorage w) CourseStorage.COURSE_STORAGE_KEY
           (Json (PCourses (cs ++ [c]))) = false
  | _ => True
  end ->
  accepts (localStorage w) CourseStorage.COURSE_STORAGE_KEY (Json (PCourses [c])) = true ->
  accepts (<[CourseStorage.COURSE_STORAGE_KEY := Json (PCourses [c])]> (localStorage w))
    "adminCourses" (Json (PCourses [c])) = true ->
  exists w',
    CourseStorage.saveCourse accepts c w = (w', Ok tt)
    /\ localStorage w'
       = <["adminCourses" := Json (PCourses [c])]>
           (<[CourseStorage.COURSE_STORAGE_KEY := Json (PCourses [c])]> (localStorage w)).
Proof.
  intros Hk Hfail H1 H2.
  assert (CourseStorage.getCourses accepts w = (w, Ok p)) as Hget.
  { rewrite (CS_getCourses_canonical accepts w (Json p)); [done|]. by rewrite Hk. }
  unfold CourseStorage.saveCourse, try_catch. rewrite (bind_ok _ _ _ _ _ Hget).
  assert (forall m : M unit,
            m w = (w, Throw TypeError) \/ m w = (w, Throw QuotaExceededError) ->
            exists w',
              (let (w'0, r) := m w in
               match r with
               | Ok a => (w'0, Ok a)
               | Throw _ =>
                   (setItem accepts CourseStorage.COURSE_STORAGE_KEY
                      (JSON_stringify (PCourses [c])) ;;
                    setItem accepts "adminCourses" (JSON_stringify (PCourses [c]))) w'0
               end) = (w', Ok tt)
              /\ localStorage w'
                 = <["adminCourses" := Json (PCourses [c])]>
                     (<[CourseStorage.COURSE_STORAGE_KEY := Json (PCourses [c])]>
                        (localStorage w))) as Hcatch.
  { intros m [-> | ->]; rewrite bind_setItem; unfold JSON_stringify; rewrite H1;
      unfold setItem; simpl; rewrite H2; by eexists. }
  apply Hcatch. destruct p as [|cs| |]; try (by left).
  destruct Hfail as [Hnew Hrefused]. right.
  unfold bind at 1, as_array at 1, ret at 1. rewrite Hnew. simpl.
  unfold CourseStorage.write_all. rewrite bind_setItem.
  unfold JSON_stringify. by rewrite Hrefused.
Qed.

Lemma saveCourse_fallback_keeps_only_the_new_course_witness :
  exists w',
    CourseStorage.saveCourse (quota_policy 4) rec_x (world two_slots []) = (w', Ok tt)
    /\ localStorage w'
       = <["adminCourses" := Json (PCourses [rec_x])]>
           (<["edutube_courses" := Json (PCourses [rec_x])]> two_slots).
Proof.
  apply (saveCourse_fallback_keeps_only_the_new_course (quota_policy 4) rec_x
           (world two_slots []) (PCourses [rec_1; rec_2]));
    first [reflexivity | vm_compute; reflexivity | vm_compute; split; reflexivity].
Defined.

Lemma written4_again k1 k2 k3 k4 v (s : gmap string Text) :
  written4 k1 k2 k3 k4 v v v v (written4 k1 k2 k3 k4 v v v v s)
  = written4 k1 k2 k3 k4 v v v v s.
Proof.
  apply map_eq. intros k.
  destruct (decide (k = k1 \/ k = k2 \/ k = k3 \/ k = k4)) as [Hk|Hk].
  - by rewrite !lookup_written4.
  - unfold written4. rewrite !lookup_insert_ne; [done|intros ->; tauto..].
Qed.

Lemma removeOne_again i cs : removeOne i (removeOne i cs) = removeOne i cs.
Proof.
  unfold removeOne. induction cs as [|c cs IH]; [done|].
  destruct (decide (_id c = Some i)).
  - by rewrite !filter_cons_False by (intros Hne; by apply Hne).
  - rewrite (filter_cons_True _ c) by done. rewrite filter_cons_True by done.
    by rewrite IH.
Qed.

(** The synchronous [deleteCourse] never raises.  On a mirror whose
    canonical slot holds an array, and with every write accepted, it
    leaves all four slots with that array minus the records of the given
    identity, and deleting the same identity again changes nothing. *)
Theorem deleteCourse_removes_everywhere_and_is_idempotent accepts i w :
  (exists w', CourseStorage.deleteCourse accepts i w = (w', Ok tt))
  /\ (forall cs,
        (forall st k v, accepts st k v = true) ->
        localStorage w !! CourseStorage.COURSE_STORAGE_KEY = Some (Json (PCourses cs)) ->
        exists w',
          CourseStorage.deleteCourse accepts i w = (w', Ok tt)
          /\ (forall k, k ∈ slots ->
                localStorage w' !! k = Some (Json (PCourses (removeOne i cs))))
          /\ with_identity (Some i) (removeOne i cs) = []
          /\ exists w'',
               CourseStorage.deleteCourse accepts i w' = (w'', Ok tt)
               /\ localStorage w'' = localStorage w').
Proof.
  split.
  - unfold CourseStorage.deleteCourse, try_catch.
    match goal with |- context [let (_, _) := ?m in _] => destruct m as [w' [[]|e]] end;
      by eexists.
  - intros cs Hall Hk.
    assert (forall w0 l,
              localStorage w0 !! CourseStorage.COURSE_STORAGE_KEY = Some (Json (PCourses l)) ->
              CourseStorage.deleteCourse accepts i w0
              = (set_storage
                   (written4 CourseStorage.COURSE_STORAGE_KEY "adminCourses" "courses_data"
                      "user_courses"
                      (Json (PCourses (removeOne i l))) (Json (PCourses (removeOne i l)))
                      (Json (PCourses (removeOne i l))) (Json (PCourses (removeOne i l)))
                      (localStorage w0)) w0,
                 Ok tt)) as Hrun.
    { intros w0 l Hl. unfold CourseStorage.deleteCourse, try_catch.
      rewrite (bind_ok _ _ _ _ _ (CS_getCourses_array accepts w0 l Hl)).
      unfold bind at 1, as_array at 1, ret at 1.
      by rewrite (CS_write_all_ok _ _ _ Hall). }
    eexists. split; [by apply Hrun|]. split_and!.
    + intros k Hk'. simpl. by apply CS_written_slots.
    + apply with_identity_removeOne.
    + eexists. split.
      * apply (Hrun _ (removeOne i cs)). simpl. apply CS_written_slots.
        unfold slots. rewrite !elem_of_cons. tauto.
      * simpl. rewrite removeOne_again. apply written4_again.
Qed.

Lemma deleteCourse_removes_everywhere_and_is_idempotent_witness :
  exists w',
    CourseStorage.deleteCourse roomy "x" (world (mirror_of [rec_1; rec_x]) []) = (w', Ok tt)
    /\ (forall k, k ∈ slots -> localStorage w' !! k = Some (Json (PCourses [rec_1]))).
Proof.
  destruct (deleteCourse_removes_everywhere_and_is_idempotent roomy "x"
              (world (mirror_of [rec_1; rec_x]) [])) as [_ Hdel].
  destruct (Hdel [rec_1; rec_x]) as (w' & Hrun & Hslots & _); [reflexivity..|].
  exists w'. split; [exact Hrun|exact Hslots].
Defined.



(** ** Saving, reading and counting through courseUtils and mongoSync *)

Lemma require_token_run token msg w :
  require_token token msg w
  = if truthy token
    then (w, match token with Some t => Ok t | None => Throw (Error msg) end)
    else (w, Throw (Error msg)).
Proof. unfold require_token. destruct token as [t|]; [|done]. by destruct (truthy (Some t)). Qed.

Lemma payload_category_object o w :
  exists s, payload_category (CatObj o) w = (w, Ok (CatStr s)).
Proof.
  unfold payload_category, js_or, truthy.
  destruct (Category._id o) as [a|], (Category.name o) as [b|]; simpl;
    repeat (destruct (negb (_ =? _))%string; simpl); eauto.
Qed.

Lemma saveToMongoDB_no_token token base c w :
  truthy token = false ->
  saveToMongoDB token base c w
  = (w, Throw (Error "Authentication required to save courses")).
Proof.
  intros Hno. unfold saveToMongoDB, bind at 1. by rewrite require_token_run, Hno.
Qed.

(** [saveToMongoDB] never sends an embedded category.  With a credential
    it sends one request, [PUT] when the course has an identity and [POST]
    otherwise, whose body is the course with its category replaced by a
    string (or left out); a [null] category raises a [TypeError] before
    anything is sent, and without a credential nothing is sent either. *)
Theorem saveToMongoDB_sends_a_flat_category token base c w :
  (truthy token = false ->
     saveToMongoDB token base c w
     = (w, Throw (Error "Authentication required to save courses")))
  /\ (truthy token = true -> category c = CatNull ->
        saveToMongoDB token base c w = (w, Throw TypeError))
  /\ (truthy token = true -> category c <> CatNull ->
        exists req flat r,
          saveToMongoDB token base c w = (fetched req w, r)
          /\ sent (fetched req w) = sent w ++ [req]
          /\ localStorage (fetched req w) = localStorage w
          /\ method req = (if truthy (_id c) then "PUT" else "POST")
          /\ body req = Some (Json (PCourse (with_category c flat)))
          /\ (bare_id flat = true \/ flat = CatUndefined)).
Proof.
  split_and!.
  - apply saveToMongoDB_no_token.
  - intros Hyes Hnull. unfold saveToMongoDB, bind at 1. rewrite require_token_run, Hyes.
    destruct token as [t|]; [|done]. unfold bind at 1. by rewrite Hnull.
  - intros Hyes Hcat. unfold saveToMongoDB, bind at 1. rewrite require_token_run, Hyes.
    destruct token as [t|]; [|done].
    assert (exists flat, payload_category (category c) w = (w, Ok flat)
                         /\ (bare_id flat = true \/ flat = CatUndefined)) as (flat & Hflat & Hshape).
    { destruct (category c) as [| |s|o] eqn:Hc; [by eexists; eauto|done|by eexists; eauto|].
      destruct (payload_category_object o w) as (s & Hs). exists (CatStr s). eauto. }
    unfold bind at 1. rewrite Hflat.
    set (req := {| url := _ |}).
    destruct (fetch_run req w) as (Hst & _ & Hsent & Hf).
    unfold bind at 1. rewrite Hf.
    destruct (network w) as [|[|[s st tx b]] rest]; simpl;
      [by eexists req, flat, _..|].
    destruct (negb (response_ok (Build_Reply s st tx b))); simpl; [by eexists req, flat, _|].
    unfold bind, response_json. simpl.
    destruct b as [[| | |]|]; simpl; by eexists req, flat, _.
Qed.

Lemma saveToMongoDB_sends_a_flat_category_witness :
  saveToMongoDB None api new_course (world ∅ [created])
  = (world ∅ [created], Throw (Error "Authentication required to save courses"))
  /\ exists req flat r,
       saveToMongoDB tok api (course (Some "7") "Seven" web) (world ∅ [created])
       = (fetched req (world ∅ [created]), r)
       /\ method req = "PUT"
       /\ body req = Some (Json (PCourse (with_category (course (Some "7") "Seven" web) flat)))
       /\ (bare_id flat = true \/ flat = CatUndefined).
Proof.
  destruct (saveToMongoDB_sends_a_flat_category None api new_course (world ∅ [created]))
    as (Hno & _ & _).
  destruct (saveToMongoDB_sends_a_flat_category tok api (course (Some "7") "Seven" web)
              (world ∅ [created])) as (_ & _ & Hyes).
  split; [apply Hno; reflexivity|].
  destruct Hyes as (req & flat & r & Hrun & _ & _ & Hm & Hb & Hshape);
    [reflexivity|intros [=]|].
  exists req, flat, r. split; [exact Hrun|]. split; [exact Hm|]. split; [exact Hb|exact Hshape].
Defined.

(** The asynchronous [saveCourse] is remote-first: when [saveToMongoDB]
    fails, the failure reaches the caller and the mirror is untouched.
    Without a credential this happens before anything is sent. *)
Theorem saveCourse_is_remote_first accepts token base stamp c w :
  (forall w1 e, saveToMongoDB token base c w = (w1, Throw e) ->
     saveCourse accepts token base stamp c w = (w1, Throw e)
     /\ localStorage w1 = localStorage w)
  /\ (truthy token = false ->
        saveCourse accepts token base stamp c w
        = (w, Throw (Error "Authentication required to save courses")))
  /\ (remote_fails w = true ->
        exists w1 e, saveCourse accepts token base stamp c w = (w1, Throw e)
                     /\ localStorage w1 = localStorage w).
Proof.
  assert (forall w1 e, saveToMongoDB token base c w = (w1, Throw e) ->
            saveCourse accepts token base stamp c w = (w1, Throw e)
            /\ localStorage w1 = localStorage w) as Hfirst.
  { intros w1 e Hsave. split; [|by eapply preserves_saveToMongoDB].
    unfold saveCourse. by rewrite (bind_throw _ _ _ _ _ Hsave). }
  split_and!; [exact Hfirst| |].
  - intros Hno. apply Hfirst.
    by apply saveToMongoDB_no_token.
  - intros Hfail.
    assert (exists w1 e, saveToMongoDB token base c w = (w1, Throw e)) as (w1 & e & Hsave).
    { unfold saveToMongoDB, bind at 1. rewrite require_token_run.
      destruct (truthy token); [|by eexists _, _].
      destruct token as [t|]; [|by eexists _, _].
      unfold bind at 1.
      destruct (payload_category (category c) w) as [w0 [flat|e]] eqn:Hflat;
        [|by eexists _, _].
      assert (w0 = w) as ->.
      { destruct (category c) as [| |s|o]; simpl in Hflat; try (by injection Hflat).
        destruct (payload_category_object o w) as (s & Hs).
        unfold payload_category in Hs. rewrite Hs in Hflat. by injection Hflat. }
      unfold bind at 1, fetch at 1. unfold remote_fails in Hfail.
      destruct (network w) as [|[|[s st tx b]] rest]; [by eexists _, _..|].
      rewrite Hfail. by eexists _, _. }
    exists w1, e. by apply Hfirst.
Qed.

Lemma saveCourse_is_remote_first_witness :
  saveCourse roomy None api iso new_course (world (mirror_of [rec_1]) [created])
  = (world (mirror_of [rec_1]) [created],
     Throw (Error "Authentication required to save courses"))
  /\ exists w1 e,
       saveCourse roomy tok api iso new_course (world (mirror_of [rec_1]) [server_error])
       = (w1, Throw e)
       /\ localStorage w1 = mirror_of [rec_1].
Proof.
  destruct (saveCourse_is_remote_first roomy None api iso new_course
              (world (mirror_of [rec_1]) [created])) as (_ & Hno & _).
  destruct (saveCourse_is_remote_first roomy tok api iso new_course
              (world (mirror_of [rec_1]) [server_error])) as (_ & _ & Hfail).
  split; [apply Hno; reflexivity|]. apply Hfail. reflexivity.
Defined.




Lemma getCourses_cached accepts token base w :
  getCourses accepts token base false w = (w, Ok (slot_payload w STORAGE_KEY)).
Proof. unfold getCourses, try_catch, bind at 1, ret at 1. by rewrite read_local_spec. Qed.

(** Reading without a refresh is purely local: no request, no write, and
    the empty array for a slot that is missing, empty or unparseable.  And
    it reads back what a refresh stored: after [getCourses(true)] received
    a listing that is not empty and wrote it, [getCourses()] returns that
    listing. *)
Theorem getCourses_reads_back_a_refresh accepts token base w :
  getCourses accepts token base false w = (w, Ok (slot_payload w STORAGE_KEY))
  /\ (forall r cs rest,
        (forall st k v, accepts st k v = true) ->
        network w = Http r :: rest ->
        json r = Some (PCourses cs) ->
        response_ok r = true ->
        cs <> [] ->
        exists w',
          getCourses accepts token base true w = (w', Ok (PCourses cs))
          /\ getCourses accepts token base false w' = (w', Ok (PCourses cs))).
Proof.
  split; [apply getCourses_cached|].
  intros r cs rest Hall Hnet Hjson Hok Hne.
  assert (exists w1, fetchFromMongoDB token base w = (w1, Ok (PCourses cs))) as (w1 & Hfetch).
  { unfold fetchFromMongoDB, bind at 1, fetch at 1. rewrite Hnet. simpl.
    rewrite Hok. simpl. unfold bind at 1, response_json. rewrite Hjson.
    simpl. by eexists. }
  assert (nonempty_listing (PCourses cs) = Some (length cs)) as Hlist.
  { destruct cs; [done|]. done. }
  unfold getCourses at 1, try_catch, bind at 1, getCourses_refresh, try_catch.
  rewrite (bind_ok _ _ _ _ _ Hfetch), Hlist.
  rewrite !bind_setItem. unfold setItem. rewrite !Hall. simpl.
  eexists. split; [reflexivity|].
  rewrite getCourses_cached. unfold slot_payload. simpl.
  rewrite !lookup_insert_ne by done. by rewrite lookup_insert_eq.
Qed.

Lemma getCourses_reads_back_a_refresh_witness :
  exists w',
    getCourses roomy tok api true (world (mirror_of [rec_x]) [listing [rec_1; rec_2]])
    = (w', Ok (PCourses [rec_1; rec_2]))
    /\ getCourses roomy tok api false w' = (w', Ok (PCourses [rec_1; rec_2])).
Proof.
  eapply (proj2 (getCourses_reads_back_a_refresh roomy tok api
                   (world (mirror_of [rec_x]) [listing [rec_1; rec_2]]))
            _ [rec_1; rec_2] []);
    first [reflexivity | intros [=]].
Defined.

(** [verifyMongoDBConnection] never raises and never writes.  It answers
    the length of a listing it received, and zero when the remote call
    fails, so that an unreachable store counts like an empty one. *)
Theorem verifyMongoDBConnection_counts token base w :
  (exists w' n, verifyMongoDBConnection token base w = (w', Ok n)
                /\ localStorage w' = localStorage w)
  /\ (remote_fails w = true ->
        exists w', verifyMongoDBConnection token base w = (w', Ok (Some 0)))
  /\ (forall r cs rest,
        network w = Http r :: rest ->
        json r = Some (PCourses cs) ->
        response_ok r = true ->
        exists w', verifyMongoDBConnection token base w = (w', Ok (Some (length cs)))).
Proof.
  split_and!.
  - destruct (verifyMongoDBConnection token base w) as [w' r] eqn:Hrun.
    pose proof (preserves_verifyMongoDBConnection _ _ _ _ _ Hrun) as Hsame.
    revert Hrun. unfold verifyMongoDBConnection.
    intros [(a & _ & ->)|(w1 & e & _ & [= <- <-])]%try_catch_inv; by eexists _, _.
  - intros Hfail.
    destruct (fetchFromMongoDB_remote_fails token base w Hfail) as (w' & e & Hfetch).
    exists w'. unfold verifyMongoDBConnection, try_catch.
    by rewrite (bind_throw _ _ _ _ _ Hfetch).
  - intros r cs rest Hnet Hjson Hok.
    unfold verifyMongoDBConnection, try_catch, bind at 1, fetchFromMongoDB,
      bind at 1, fetch at 1.
    rewrite Hnet. simpl. rewrite Hok. simpl. unfold bind at 1, response_json.
    rewrite Hjson. simpl. by eexists.
Qed.

Lemma verifyMongoDBConnection_counts_witness :
  (exists w', verifyMongoDBConnection tok api (world ∅ [server_error]) = (w', Ok (Some 0)))
  /\ (exists w', verifyMongoDBConnection tok api (world ∅ [listing [rec_1; rec_2]])
                 = (w', Ok (Some 2))).
Proof.
  split.
  - apply (verifyMongoDBConnection_counts tok api (world ∅ [server_error])). reflexivity.
  - eapply (proj2 (proj2 (verifyMongoDBConnection_counts tok api
                            (world ∅ [listing [rec_1; rec_2]])))
              _ [rec_1; rec_2] []); reflexivity.
Defined.

(** [deleteFromMongoDB] fails fast without a credential: nothing is sent.
    With one it sends a single [DELETE] for the course, carrying the
    bearer token, and it succeeds exactly when the answer has a status in
    200-299; every other answer, a 404 among them, is raised. *)
Theorem deleteFromMongoDB_outcome token base i w :
  (truthy token = false ->
     deleteFromMongoDB token base i w
     = (w, Throw (Error "Authentication required to delete courses")))
  /\ (forall t, token = Some t -> t <> "" ->
        exists r,
          deleteFromMongoDB token base i w
          = (fetched {| url := base +:+ "/api/courses/" +:+ i; method := "DELETE";
                        headers := [bearer t]; body := None |} w, r)
          /\ (r = Ok true <-> remote_fails w = false)
          /\ (remote_fails w = true -> exists e, r = Throw e)).
Proof.
  split.
  - intros Hno. unfold deleteFromMongoDB, bind at 1. by rewrite require_token_run, Hno.
  - intros t -> Hne. unfold deleteFromMongoDB, bind at 1.
    rewrite require_token_run, (truthy_nonempty t Hne).
    set (req := {| url := _ |}).
    destruct (fetch_run req w) as (_ & _ & _ & Hf).
    unfold bind at 1. rewrite Hf. unfold remote_fails.
    destruct (network w) as [|[|[s st tx b]] rest]; [eexists; split_and!; [done|done|eauto]..|].
    destruct (negb (response_ok (Build_Reply s st tx b))); eexists; split_and!; try done; eauto.
Qed.

Lemma deleteFromMongoDB_outcome_witness :
  deleteFromMongoDB None api "x" (world ∅ [removed])
  = (world ∅ [removed], Throw (Error "Authentication required to delete courses"))
  /\ exists r e, snd (deleteFromMongoDB tok api "x" (world ∅ [not_found])) = r
                 /\ r = Throw e.
Proof.
  destruct (deleteFromMongoDB_outcome None api "x" (world ∅ [removed])) as [Hno _].
  destruct (deleteFromMongoDB_outcome tok api "x" (world ∅ [not_found])) as [_ Hyes].
  split; [apply Hno; reflexivity|].
  destruct (Hyes "tok") as (r & Hrun & _ & Hfail); [reflexivity|intros [=]|].
  destruct Hfail as [e He]; [reflexivity|].
  exists r, e. rewrite Hrun. split; [reflexivity|exact He].
Defined.

(** ** What a positive count and a stored category tell *)




